(** * audit_unwrap: a lexical audit of [.unwrap()] calls outside test code

    Shallow embedding of [src/audit_unwrap.py].  The script walks the
    directory tree below [crate_dir], reads every [*.rs] file that is not
    disabled, scans it line by line with a three-variable state
    ([in_test], [brace_depth], [test_start_depth]) and appends a tuple
    [(fpath, i, stripped)] to the global list [results] for every line it
    flags.  At the end the tuples are printed in the order of [sorted].

    Conventions of the model:
    - a Python [str] is a [string]; a character is a code point below 256;
    - a Python [int] is a [Z];
    - the file system is a finite tree of directories ([fsdir]); the order
      of the entries of a directory is the order in which [os.walk] lists
      them;
    - the module-level list [results] is threaded explicitly. *)

From Stdlib Require Import Bool Ascii String List ZArith Lia.
From Stdlib Require Import Sorted Permutation DecimalString.
Import ListNotations.

Local Open Scope string_scope.
Local Open Scope Z_scope.

(** ** Python string primitives used by the script *)

Module PyStr.

(** [c.isspace()] for a code point below 256: TAB..CR, FS..US, SPACE,
    NEL (0x85) and NBSP (0xA0). *)
Definition isspace (c : ascii) : bool :=
  let n := N_of_ascii c in
  ((9 <=? n) && (n <=? 13) || (28 <=? n) && (n <=? 32)
   || (n =? 133) || (n =? 160))%N.

(** [s.lstrip()] *)
Fixpoint lstrip (s : string) : string :=
  match s with
  | EmptyString => EmptyString
  | String c r => if isspace c then lstrip r else s
  end.

(** [s.rstrip()] *)
Fixpoint rstrip (s : string) : string :=
  match s with
  | EmptyString => EmptyString
  | String c r =>
      match rstrip r with
      | EmptyString => if isspace c then EmptyString else String c EmptyString
      | r' => String c r'
      end
  end.

(** [s.strip()] *)
Definition strip (s : string) : string := rstrip (lstrip s).

(** [s.startswith(p)] *)
Definition startswith (p s : string) : bool := String.prefix p s.

(** [sub in s] *)
Fixpoint isin (sub s : string) : bool :=
  String.prefix sub s ||
  match s with
  | EmptyString => false
  | String _ r => isin sub r
  end.

(** [s.count(c)] for a one-character [c] *)
Fixpoint count (c : ascii) (s : string) : Z :=
  match s with
  | EmptyString => 0
  | String d r => (if Ascii.eqb c d then 1 else 0) + count c r
  end.

(** [rev s] is [s[::-1]]; only used to phrase [endswith]. *)
Fixpoint rev_onto (s acc : string) : string :=
  match s with
  | EmptyString => acc
  | String c r => rev_onto r (String c acc)
  end.

Definition rev (s : string) : string := rev_onto s EmptyString.

(** [s.endswith(suf)] *)
Definition endswith (suf s : string) : bool :=
  String.prefix (rev suf) (rev s).

(** The line terminator that [readlines] leaves at the end of a line. *)
Definition nl : string := String (ascii_of_nat 10) EmptyString.

End PyStr.

(** ** The line scanner *)

(** The three loop variables of the per-file scan. *)
Record ScanState : Type := mkState {
  in_test : bool;
  brace_depth : Z;
  test_start_depth : Z
}.

(** A tuple [(fpath, i, stripped)] appended to [results]. *)
Definition Finding : Type := (string * Z * string)%type.

Definition f_path (f : Finding) : string := fst (fst f).
Definition f_line (f : Finding) : Z := snd (fst f).
Definition f_code (f : Finding) : string := snd f.

Module Scanner.

Import PyStr.

(** [in_test = False; brace_depth = 0; test_start_depth = 0] *)
Definition init_state : ScanState := mkState false 0 0.

(** ["#[cfg(test)]" in stripped or "#[test]" in stripped] *)
Definition has_marker (stripped : string) : bool :=
  isin "#[cfg(test)]" stripped || isin "#[test]" stripped.

(** Lines 24-26: the marker test and its two assignments. *)
Definition detect_marker (st : ScanState) (line : string) : ScanState :=
  if has_marker (strip line)
  then mkState true (brace_depth st) (brace_depth st)
  else st.

(** [line.count("{") - line.count("}")] *)
Definition brace_delta (line : string) : Z :=
  count "{"%char line - count "}"%char line.

(** Line 28: [brace_depth += line.count("{") - line.count("}")]. *)
Definition update_depth (st : ScanState) (line : string) : ScanState :=
  mkState (in_test st) (brace_depth st + brace_delta line)
          (test_start_depth st).

(** Lines 30-31: leave test mode once the depth is back at the start depth. *)
Definition exit_check (st : ScanState) : ScanState :=
  if in_test st && (brace_depth st <=? test_start_depth st)
  then mkState false (brace_depth st) (test_start_depth st)
  else st.

(** The state after lines 23-31 of one iteration. *)
Definition advance (st : ScanState) (line : string) : ScanState :=
  exit_check (update_depth (detect_marker st line) line).

(** How one iteration of the loop body ends. *)
Inductive verdict : Type :=
| SkipTest                (* line 33-34: [if in_test: continue] *)
| SkipComment             (* line 36-37: [startswith("//")] *)
| Flag (f : Finding)      (* line 40: [results.append(...)] *)
| Pass.                   (* the condition of line 39 is false *)

(** Lines 33-40 of one iteration; [st'] is the state after [advance]. *)
Definition judge (fpath : string) (i : Z) (st' : ScanState) (line : string)
  : verdict :=
  if in_test st' then SkipTest
  else if startswith "//" (strip line) then SkipComment
  else if isin ".unwrap()" line && negb (isin ".unwrap_or" line)
       then Flag (fpath, i, strip line)
       else Pass.

Definition emitted (v : verdict) : list Finding :=
  match v with
  | Flag f => [f]
  | _ => []
  end.

(** The loop [for i, line in enumerate(lines, i)] started in state [st];
    the result lists the tuples appended, in order. *)
Fixpoint scan_lines (fpath : string) (st : ScanState) (i : Z)
         (lines : list string) : list Finding :=
  match lines with
  | [] => []
  | line :: rest =>
      let st' := advance st line in
      (emitted (judge fpath i st' line)
         ++ scan_lines fpath st' (i + 1) rest)%list
  end.

(** The state of the loop variables after the lines [lines]. *)
Definition run (st : ScanState) (lines : list string) : ScanState :=
  fold_left advance lines st.

(** The tuples one file contributes: fresh state, numbering from 1. *)
Definition scan_file (fpath : string) (lines : list string) : list Finding :=
  scan_lines fpath init_state 1 lines.

End Scanner.

(** ** The file enumerator *)

Module Enumerator.

Import PyStr.

(** A directory: its plain files (name and the lines [readlines] returns)
    and its sub-directories, both in the order [os.walk] lists them. *)
#[local] Set Warnings "-register-all".
Inductive fsdir : Type :=
| Dir (files : list (string * list string))
      (subdirs : list (string * fsdir)).

(** [os.path.join(a, b)] of [posixpath]. *)
Definition join (a b : string) : string :=
  if startswith "/" b then b
  else if (String.length a =? 0)%nat || endswith "/" a then a ++ b
  else a ++ "/" ++ b.

(** [os.walk(top)], top-down: the triple of [top] first, then the walk of
    each sub-directory [join(top, name)].  The component [dirs] of the
    triple is never read by the script and is left out. *)
Fixpoint walk (top : string) (d : fsdir)
  : list (string * list (string * list string)) :=
  match d with
  | Dir files subdirs =>
      (top, files) ::
      (fix walk_subdirs (ds : list (string * fsdir)) :=
         match ds with
         | [] => []
         | (name, sub) :: ds' =>
             (walk (join top name) sub ++ walk_subdirs ds')%list
         end) subdirs
  end.

(** Entry names as a file system gives them: a name is a single path
    component, so it does not start with a separator. *)
Fixpoint names_ok (d : fsdir) : bool :=
  match d with
  | Dir _ subdirs =>
      (fix subdirs_ok (ds : list (string * fsdir)) : bool :=
         match ds with
         | [] => true
         | (name, sub) :: ds' =>
             negb (startswith "/" name) && names_ok sub && subdirs_ok ds'
         end) subdirs
  end.

(** [crate_dir = "crates"] *)
Definition crate_dir : string := "crates".

(** Line 9: [if "/target/" in root: continue]. *)
Definition skipped_root (root : string) : bool := isin "/target/" root.

(** Line 12: [if not f.endswith(".rs") or ".disabled" in f: continue]. *)
Definition skipped_name (f : string) : bool :=
  negb (endswith ".rs" f) || isin ".disabled" f.

(** The files of one triple that reach [open(fpath)], with their lines. *)
Definition files_of_root (root : string)
           (fnames : list (string * list string))
  : list (string * list string) :=
  if skipped_root root then []
  else flat_map (fun f => if skipped_name (fst f) then []
                          else [(join root (fst f), snd f)]) fnames.

(** Every [(fpath, lines)] the two outer loops reach, in loop order. *)
Definition enumerate (top : string) (d : fsdir)
  : list (string * list string) :=
  flat_map (fun t => files_of_root (fst t) (snd t)) (walk top d).

End Enumerator.

(** ** The report aggregator *)

Module Report.

Import PyStr.

(** Comparison of two tuples as Python compares them: the first component
    that differs decides; strings compare by code point, integers by
    value. *)
Definition tuple_compare (a b : Finding) : comparison :=
  match String.compare (f_path a) (f_path b) with
  | Eq => match Z.compare (f_line a) (f_line b) with
          | Eq => String.compare (f_code a) (f_code b)
          | c => c
          end
  | c => c
  end.

(** [a < b] on tuples. *)
Definition tuple_lt (a b : Finding) : bool :=
  match tuple_compare a b with
  | Lt => true
  | _ => false
  end.

(** [a <= b] on tuples, as [not (b < a)]. *)
Definition tuple_le (a b : Finding) : Prop := tuple_lt b a = false.

(** [sorted] is a stable sort that only asks [<].  A stable sort has one
    possible result, so it is modelled by stable insertion: [x], which
    precedes every element of [l] in the input, goes before the first [y]
    with [not (y < x)]. *)
Fixpoint insert (x : Finding) (l : list Finding) : list Finding :=
  match l with
  | [] => [x]
  | y :: r => if tuple_lt y x then y :: insert x r else x :: l
  end.

Definition sorted (results : list Finding) : list Finding :=
  fold_right insert [] results.

(** [str(n)] for an integer. *)
Definition str_of_int (n : Z) : string := NilZero.string_of_int (Z.to_int n).

(** [f"{fpath}:{line}: {code}"] *)
Definition render (f : Finding) : string :=
  f_path f ++ ":" ++ str_of_int (f_line f) ++ ": " ++ f_code f.

(** [f"\nTotal non-test .unwrap() calls: {len(results)}"] *)
Definition summary (results : list Finding) : string :=
  nl ++ "Total non-test .unwrap() calls: "
     ++ str_of_int (Z.of_nat (List.length results)).

(** The strings passed to [print], in order. *)
Definition report (results : list Finding) : list string :=
  (map render (sorted results) ++ [summary results])%list.

(** The key the report is said to be ordered by: path, then line. *)
Definition key_le (a b : Finding) : Prop :=
  String.compare (f_path a) (f_path b) = Lt \/
  (f_path a = f_path b /\ f_line a <= f_line b).

End Report.

(** ** The whole script *)

Module Audit.

Import Scanner Enumerator Report.

(** The value of [results] after the files [files] (path and lines) have
    been scanned in this order, starting from [results = acc]. *)
Definition scan_all (files : list (string * list string))
           (acc : list Finding) : list Finding :=
  fold_left (fun res f => (res ++ scan_file (fst f) (snd f))%list)
            files acc.

(** The value of [results] after the loops over the tree [d] rooted at
    [top], starting from [results = acc]. *)
Definition collect (top : string) (d : fsdir) (acc : list Finding)
  : list Finding :=
  scan_all (enumerate top d) acc.

(** The output of the script on the tree [d] found at [crate_dir]. *)
Definition main (d : fsdir) : list string :=
  report (collect crate_dir d []).

End Audit.

(** ** Vocabulary for statements about whole scans *)

Module Trace.

Import PyStr Scanner.

(** The conditions of lines 36 and 39 together: what a line must look like
    to be appended once line 33 has let it through. *)
Definition flaggable (line : string) : bool :=
  negb (startswith "//" (strip line))
  && (isin ".unwrap()" line && negb (isin ".unwrap_or" line)).

(** No line of [lines] passes the marker test of line 24. *)
Definition marker_free (lines : list string) : bool :=
  forallb (fun l => negb (has_marker (strip l))) lines.

(** The sum of [line.count("{") - line.count("}")] over [lines]. *)
Definition total_delta (lines : list string) : Z :=
  fold_right (fun l acc => brace_delta l + acc) 0 lines.

(** Starting [d] levels above the start depth, the depth stays above it
    after each line of [body]: the condition of line 30 never holds. *)
Fixpoint stays_open (d : Z) (body : list string) : bool :=
  match body with
  | [] => true
  | l :: rest =>
      (0 <? d + brace_delta l) && stays_open (d + brace_delta l) rest
  end.

End Trace.

(** ** Vocabulary for statements about the directory tree *)

Module Tree.

Import PyStr Enumerator.

(** A name as a directory entry has it: not empty, without a separator. *)
Definition is_component (n : string) : bool :=
  negb (String.eqb n EmptyString) && negb (isin "/" n).

(** The directory reached from [d] by going down the names [ns], taking
    for each name the first sub-directory entry that carries it. *)
Fixpoint dir_at (d : fsdir) (ns : list string) : option fsdir :=
  match ns with
  | [] => Some d
  | n :: ns' =>
      match d with
      | Dir _ subdirs =>
          match find (fun e => String.eqb (fst e) n) subdirs with
          | Some e => dir_at (snd e) ns'
          | None => None
          end
      end
  end.

End Tree.

(** * Properties *)

(** ** String facts *)

Section StringFacts.

Import PyStr.

Lemma prefix_nil_r (p : string) :
  String.prefix p EmptyString = true -> p = EmptyString.
Proof. destruct p; simpl; [reflexivity | discriminate]. Qed.

End StringFacts.

(** ** The state machine of the scanner *)

Section ScannerFacts.

Import PyStr Scanner.

Lemma detect_marker_hit (st : ScanState) (line : string) :
  has_marker (strip line) = true ->
  detect_marker st line = mkState true (brace_depth st) (brace_depth st).
Proof. unfold detect_marker. now intros ->. Qed.

Lemma detect_marker_miss (st : ScanState) (line : string) :
  has_marker (strip line) = false -> detect_marker st line = st.
Proof. unfold detect_marker. now intros ->. Qed.

Lemma exit_check_depth (st : ScanState) :
  brace_depth (exit_check st) = brace_depth st /\
  test_start_depth (exit_check st) = test_start_depth st.
Proof. unfold exit_check. destruct (_ && _); auto. Qed.

Lemma exit_check_in_test (st : ScanState) :
  in_test (exit_check st) = true <->
  in_test st = true /\ test_start_depth st < brace_depth st.
Proof.
  unfold exit_check.
  destruct (in_test st) eqn:Ht; cbn [andb].
  - destruct (Z.leb_spec (brace_depth st) (test_start_depth st));
      cbn [in_test]; rewrite ?Ht; split; intros; try discriminate;
      intuition lia.
  - rewrite Ht. split; [discriminate | intros [? _]; discriminate].
Qed.

(** Depth bookkeeping of one iteration: the braces of the line are always
    counted, whatever the mode. *)
Lemma advance_depth (st : ScanState) (line : string) :
  brace_depth (advance st line) = brace_depth st + brace_delta line.
Proof.
  unfold advance. destruct (exit_check_depth (update_depth (detect_marker st line) line)) as [-> _].
  unfold update_depth, detect_marker. cbn [brace_depth].
  destruct (has_marker _); reflexivity.
Qed.

Lemma advance_marker_start (st : ScanState) (line : string) :
  has_marker (strip line) = true ->
  test_start_depth (advance st line) = brace_depth st.
Proof.
  intros H. unfold advance.
  destruct (exit_check_depth (update_depth (detect_marker st line) line)) as [_ ->].
  rewrite (detect_marker_hit _ _ H). reflexivity.
Qed.

Lemma advance_marker_in_test (st : ScanState) (line : string) :
  has_marker (strip line) = true ->
  in_test (advance st line) = true <-> 0 < brace_delta line.
Proof.
  intros H. unfold advance. rewrite exit_check_in_test.
  rewrite (detect_marker_hit _ _ H). cbn. intuition lia.
Qed.

Lemma advance_in_test_depth (st : ScanState) (line : string) :
  in_test (advance st line) = true ->
  test_start_depth (advance st line) < brace_depth (advance st line).
Proof.
  unfold advance. intros H.
  destruct (exit_check_depth (update_depth (detect_marker st line) line)) as [-> ->].
  now apply exit_check_in_test in H.
Qed.

Lemma run_snoc (st : ScanState) (lines : list string) (line : string) :
  run st (lines ++ [line]) = advance (run st lines) line.
Proof. unfold run. now rewrite fold_left_app. Qed.

(** What [judge] needs in order to flag a line. *)
Lemma judge_flag (fpath : string) (i : Z) (st : ScanState) (line : string)
      (f : Finding) :
  judge fpath i st line = Flag f ->
  f = (fpath, i, strip line) /\ in_test st = false /\
  startswith "//" (strip line) = false /\
  isin ".unwrap()" line = true /\ isin ".unwrap_or" line = false.
Proof.
  unfold judge.
  destruct (in_test st); [discriminate|].
  destruct (startswith "//" (strip line)); [discriminate|].
  destruct (isin ".unwrap()" line); cbn [andb]; [|discriminate].
  destruct (isin ".unwrap_or" line); cbn [negb]; [discriminate|].
  intros [= <-]. auto.
Qed.

Lemma emitted_In (v : verdict) (f : Finding) :
  In f (emitted v) -> v = Flag f.
Proof. destruct v; cbn; intuition congruence. Qed.

(** Every tuple of a scan comes from one line: the one at the offset its
    line number names, judged in the state reached after that line. *)
Lemma scan_lines_In (fpath : string) (lines : list string) :
  forall (st : ScanState) (i : Z) (f : Finding),
    In f (scan_lines fpath st i lines) ->
    exists (k : nat) (line : string),
      nth_error lines k = Some line /\
      judge fpath (i + Z.of_nat k) (run st (firstn (S k) lines)) line
      = Flag f.
Proof.
  induction lines as [|l rest IH]; intros st i f; cbn [scan_lines].
  - intros [].
  - rewrite in_app_iff. intros [H | H].
    + apply emitted_In in H. exists 0%nat, l. split; [reflexivity|].
      cbn. now rewrite Z.add_0_r.
    + destruct (IH _ _ _ H) as (k & line & Hk & Hj).
      exists (S k), line. split; [exact Hk|].
      replace (i + Z.of_nat (S k)) with (i + 1 + Z.of_nat k) by lia.
      exact Hj.
Qed.

Lemma scan_lines_line_no (fpath : string) (lines : list string)
      (st : ScanState) (i : Z) (f : Finding) :
  In f (scan_lines fpath st i lines) ->
  exists (k : nat) (line : string),
    nth_error lines k = Some line /\ f_line f = i + Z.of_nat k /\
    f_path f = fpath /\ f_code f = strip line /\
    startswith "//" (strip line) = false /\
    isin ".unwrap()" line = true /\ isin ".unwrap_or" line = false.
Proof.
  intros H. destruct (scan_lines_In _ _ _ _ _ H) as (k & line & Hk & Hj).
  apply judge_flag in Hj. destruct Hj as (-> & _ & Hc & Hu & Ho).
  exists k, line. cbn. auto 10.
Qed.

Lemma emitted_length (fpath : string) (i : Z) (st : ScanState)
      (line : string) :
  (List.length (emitted (judge fpath i st line))
   <= if isin ".unwrap()" line then 1 else 0)%nat.
Proof.
  unfold judge.
  destruct (in_test st); cbn; [destruct (isin _ line); lia|].
  destruct (startswith _ _); cbn; [destruct (isin _ line); lia|].
  destruct (isin ".unwrap()" line); cbn; [|lia].
  destruct (isin ".unwrap_or" line); cbn; lia.
Qed.

Lemma scan_lines_length (fpath : string) (lines : list string) :
  forall (st : ScanState) (i : Z),
    (List.length (scan_lines fpath st i lines)
     <= List.length (filter (isin ".unwrap()") lines))%nat.
Proof.
  induction lines as [|l rest IH]; intros st i; cbn [scan_lines filter].
  - cbn. lia.
  - rewrite length_app.
    pose proof (emitted_length fpath i (advance st l) l) as H1.
    pose proof (IH (advance st l) (i + 1)) as H2.
    destruct (isin ".unwrap()" l); cbn [List.length]; lia.
Qed.

End ScannerFacts.

(** ** Claims about the line scanner *)

Section ScannerClaims.

Import PyStr Scanner.

(** C1 (the code departs from the claim).  On the four-line file
    [#[test]], [fn t() {], [let x = foo.unwrap();], [}] the scan does not
    stay silent: the marker line has no brace of its own, so the exit check
    of that same line finds the depth at the start depth and leaves test
    mode again; line 3 is then judged as ordinary code and flagged. *)
Theorem test_attribute_on_own_line_is_flagged (fpath : string) :
  let file := ["#[test]" ++ nl; "fn t() {" ++ nl;
               "    let x = foo.unwrap();" ++ nl; "}" ++ nl] in
  in_test (run init_state (firstn 1 file)) = false /\
  in_test (run init_state (firstn 3 file)) = false /\
  scan_file fpath file = [(fpath, 3, "let x = foo.unwrap();")].
Proof. cbv zeta. repeat split. Qed.

(** The same test with the marker on the line that opens the block is
    skipped: this is the path on which the scanner does what C1 says. *)
Example test_attribute_with_brace_is_skipped (fpath : string) :
  scan_file fpath ["#[test] fn t() {" ++ nl;
                   "    let x = foo.unwrap();" ++ nl; "}" ++ nl] = [].
Proof. reflexivity. Qed.

(** C2, as stated, fails: a line with a marker and the pattern, met outside
    test mode, is flagged when its braces do not leave a block open.  The
    line below is ordinary code whose trailing comment names the
    attribute: the marker step enters test mode, the exit check of the
    same iteration leaves it again (depth 0 is not above start depth 0),
    and the pattern step flags the line. *)
Lemma marker_line_suppressed_counterexample :
  ~ (forall (fpath : string) (i : Z) (st : ScanState) (line : string),
        in_test st = false ->
        has_marker (strip line) = true ->
        isin ".unwrap()" line = true ->
        isin ".unwrap_or" line = false ->
        emitted (judge fpath i (advance st line) line) = []).
Proof.
  intros H.
  specialize (H "a.rs" 1 init_state
                ("let v = foo.unwrap(); // moved out of #[test] code" ++ nl)
                eq_refl eq_refl eq_refl eq_refl).
  discriminate H.
Qed.

(** C2 (amended).  A line that contains a test marker and has more opening
    than closing braces is skipped as test code, whatever it contains and
    whatever the mode before it: the marker is handled and the skip taken
    before the pattern is looked at. *)
Theorem marker_line_opening_block_suppressed
        (fpath : string) (i : Z) (st : ScanState) (line : string) :
  has_marker (strip line) = true ->
  0 < brace_delta line ->
  judge fpath i (advance st line) line = SkipTest /\
  emitted (judge fpath i (advance st line) line) = [].
Proof.
  intros Hm Hd.
  assert (Ht : in_test (advance st line) = true)
    by now apply advance_marker_in_test.
  unfold judge. rewrite Ht. split; reflexivity.
Qed.

Lemma marker_line_opening_block_suppressed_witness :
  let line := "#[test] fn t() { foo.unwrap();" ++ nl in
  isin ".unwrap()" line = true /\
  judge "a.rs" 1 (advance init_state line) line = SkipTest /\
  emitted (judge "a.rs" 1 (advance init_state line) line) = [].
Proof.
  cbv zeta. split; [reflexivity|].
  apply (marker_line_opening_block_suppressed
           "a.rs" 1 init_state ("#[test] fn t() { foo.unwrap();" ++ nl)).
  - reflexivity.
  - reflexivity.
Defined.

(** C3 (the code departs from the claim).  The marker step has no test of
    [in_test]: a marker line met inside a test block overwrites
    [test_start_depth] with the current depth.  In the file
    [#[cfg(test)] mod tests {], [#[test] fn a() {], [}],
    [fn helper() { x.unwrap(); }], [}] the nested marker moves the start
    depth from 0 to 1; the [}] of [fn a] then brings the depth back to 1
    and ends test mode inside the module, and the helper of the test
    module is reported. *)
Theorem nested_marker_ends_test_module_early (fpath : string) :
  let file := ["#[cfg(test)] mod tests {" ++ nl;
               "    #[test] fn a() {" ++ nl;
               "    }" ++ nl;
               "    fn helper() { x.unwrap(); }" ++ nl;
               "}" ++ nl] in
  run init_state (firstn 1 file) = mkState true 1 0 /\
  run init_state (firstn 2 file) = mkState true 2 1 /\
  run init_state (firstn 3 file) = mkState false 1 1 /\
  scan_file fpath file = [(fpath, 4, "fn helper() { x.unwrap(); }")].
Proof. cbv zeta. repeat split. Qed.

(** The same at the level of one step: in test mode a marker line does not
    leave the start depth as it was. *)
Lemma marker_in_test_mode_counterexample :
  ~ (forall (st : ScanState) (line : string),
        in_test st = true ->
        has_marker (strip line) = true ->
        in_test (detect_marker st line) = in_test st /\
        test_start_depth (detect_marker st line) = test_start_depth st).
Proof.
  intros H.
  destruct (H (run init_state ["#[cfg(test)] mod tests {" ++ nl])
              ("    #[test] fn a() {" ++ nl) eq_refl eq_refl) as [_ H2].
  discriminate H2.
Qed.

(** C5.  A file never yields more tuples than it has lines that contain
    [.unwrap()]: one line yields at most one tuple, and none unless it
    contains the target. *)
Theorem findings_bounded_by_target_lines (fpath : string)
        (lines : list string) :
  (List.length (scan_file fpath lines)
   <= List.length (filter (isin ".unwrap()") lines))%nat /\
  (forall (i : Z) (st : ScanState) (line : string),
      (List.length (emitted (judge fpath i st line))
       <= if isin ".unwrap()" line then 1 else 0)%nat).
Proof.
  split.
  - apply scan_lines_length.
  - intros. apply emitted_length.
Qed.

End ScannerClaims.

Section ScannerSkips.

Import PyStr Scanner.

(** C7.  A line that contains [.unwrap_or] is never flagged: the iteration
    that judges it appends nothing, in whatever state, and no tuple of the
    file carries its line number.  The one-line file
    [let x = foo.unwrap_or(0);] yields nothing, with or without a final
    newline. *)
Theorem safe_variant_line_never_flagged
        (fpath : string) (lines : list string) (k : nat) (line : string) :
  nth_error lines k = Some line ->
  isin ".unwrap_or" line = true ->
  (forall (i : Z) (st : ScanState),
      emitted (judge fpath i st line) = []) /\
  (forall f : Finding,
      In f (scan_file fpath lines) -> f_line f <> Z.of_nat k + 1) /\
  scan_file fpath ["let x = foo.unwrap_or(0);" ++ nl] = [] /\
  scan_file fpath ["let x = foo.unwrap_or(0);"] = [].
Proof.
  intros Hk Ho. split; [|split; [|split; reflexivity]].
  - intros i st. unfold judge.
    destruct (in_test st); [reflexivity|].
    destruct (startswith _ _); [reflexivity|].
    rewrite Ho. cbn [negb]. rewrite andb_false_r. reflexivity.
  - intros f Hf Hline.
    destruct (scan_lines_line_no _ _ _ _ _ Hf)
      as (k' & line' & Hk' & Hno & _ & _ & _ & _ & Ho').
    assert (k' = k) by lia. subst k'.
    congruence.
Qed.

Lemma safe_variant_line_never_flagged_witness :
  let lines := ["fn main() {" ++ nl;
                "    let a = x.unwrap(); let b = y.unwrap_or(0);" ++ nl;
                "    let c = z.unwrap();" ++ nl; "}" ++ nl] in
  isin ".unwrap()" (nth 1 lines EmptyString) = true /\
  scan_file "a.rs" lines = [("a.rs", 3, "let c = z.unwrap();")] /\
  (forall f : Finding, In f (scan_file "a.rs" lines) -> f_line f <> 2).
Proof.
  cbv zeta. split; [reflexivity|]. split; [reflexivity|].
  apply (safe_variant_line_never_flagged
           "a.rs"
           ["fn main() {" ++ nl;
            "    let a = x.unwrap(); let b = y.unwrap_or(0);" ++ nl;
            "    let c = z.unwrap();" ++ nl; "}" ++ nl]
           1%nat
           ("    let a = x.unwrap(); let b = y.unwrap_or(0);" ++ nl)).
  - reflexivity.
  - reflexivity.
Defined.

(** C8.  A line whose trimmed text starts with [//] is never flagged: if it
    is not skipped as test code it is skipped as a comment, so the
    iteration appends nothing and no tuple of the file carries its line
    number. *)
Theorem comment_line_never_flagged
        (fpath : string) (lines : list string) (k : nat) (line : string) :
  nth_error lines k = Some line ->
  startswith "//" (strip line) = true ->
  (forall (i : Z) (st : ScanState),
      in_test st = false -> judge fpath i st line = SkipComment) /\
  (forall (i : Z) (st : ScanState),
      emitted (judge fpath i st line) = []) /\
  (forall f : Finding,
      In f (scan_file fpath lines) -> f_line f <> Z.of_nat k + 1).
Proof.
  intros Hk Hc. split; [|split].
  - intros i st Ht. unfold judge. now rewrite Ht, Hc.
  - intros i st. unfold judge.
    destruct (in_test st); [reflexivity|]. now rewrite Hc.
  - intros f Hf Hline.
    destruct (scan_lines_line_no _ _ _ _ _ Hf)
      as (k' & line' & Hk' & Hno & _ & _ & Hc' & _).
    assert (k' = k) by lia. subst k'.
    congruence.
Qed.

Lemma comment_line_never_flagged_witness :
  let lines := ["fn main() {" ++ nl;
                "    // foo.unwrap() example" ++ nl;
                "    let c = z.unwrap();" ++ nl; "}" ++ nl] in
  isin ".unwrap()" (nth 1 lines EmptyString) = true /\
  scan_file "a.rs" lines = [("a.rs", 3, "let c = z.unwrap();")] /\
  (forall f : Finding, In f (scan_file "a.rs" lines) -> f_line f <> 2).
Proof.
  cbv zeta. split; [reflexivity|]. split; [reflexivity|].
  apply (comment_line_never_flagged
           "a.rs"
           ["fn main() {" ++ nl;
            "    // foo.unwrap() example" ++ nl;
            "    let c = z.unwrap();" ++ nl; "}" ++ nl]
           1%nat ("    // foo.unwrap() example" ++ nl)).
  - reflexivity.
  - reflexivity.
Defined.

(** C9.  The marker step does not look at comments: on a line whose
    trimmed text starts with [//] and contains a marker it sets [in_test]
    and captures the depth, and the captured depth is still there at the
    end of the iteration.  When the comment also leaves a block open, test
    mode outlives the line, and a later line of code with [.unwrap()] is
    skipped which would be flagged without the comment. *)
Theorem commented_marker_toggles_test_mode :
  (forall (st : ScanState) (line : string),
      startswith "//" (strip line) = true ->
      has_marker (strip line) = true ->
      detect_marker st line
      = mkState true (brace_depth st) (brace_depth st) /\
      test_start_depth (advance st line) = brace_depth st /\
      (0 < brace_delta line -> in_test (advance st line) = true)) /\
  (forall fpath : string,
      scan_file fpath ["// #[test] fn old() {" ++ nl;
                       "let x = foo.unwrap();" ++ nl] = [] /\
      scan_file fpath ["let x = foo.unwrap();" ++ nl]
      = [(fpath, 1, "let x = foo.unwrap();")]).
Proof.
  split.
  - intros st line _ Hm. split; [|split].
    + now apply detect_marker_hit.
    + now apply advance_marker_start.
    + intros Hd. now apply advance_marker_in_test.
  - intros fpath. split; reflexivity.
Qed.

Lemma commented_marker_toggles_test_mode_witness :
  let line := "// #[cfg(test)] mod old {" ++ nl in
  let st := mkState false 2 0 in
  detect_marker st line = mkState true 2 2 /\
  test_start_depth (advance st line) = 2 /\
  in_test (advance st line) = true.
Proof.
  cbv zeta.
  destruct commented_marker_toggles_test_mode as [H _].
  destruct (H (mkState false 2 0) ("// #[cfg(test)] mod old {" ++ nl)
              eq_refl eq_refl) as (H1 & H2 & H3).
  split; [exact H1|]. split; [exact H2|]. apply H3. reflexivity.
Defined.

(** C10.  At the end of every iteration, test mode implies a depth
    strictly above the captured start depth: this holds after one line
    from any state, hence in every state the loop reaches, and in
    particular whenever a line is skipped as test code. *)
Theorem in_test_implies_deeper_than_start :
  (forall (st : ScanState) (line : string),
      in_test (advance st line) = true ->
      test_start_depth (advance st line) < brace_depth (advance st line)) /\
  (forall lines : list string,
      in_test (run init_state lines) = true ->
      test_start_depth (run init_state lines)
      < brace_depth (run init_state lines)) /\
  (forall (fpath : string) (i : Z) (st : ScanState) (line : string),
      judge fpath i (advance st line) line = SkipTest ->
      test_start_depth (advance st line) < brace_depth (advance st line)).
Proof.
  split; [|split].
  - apply advance_in_test_depth.
  - intros lines. destruct lines as [|l rest] using rev_ind.
    + cbn. discriminate.
    + rewrite run_snoc. apply advance_in_test_depth.
  - intros fpath i st line Hj. apply advance_in_test_depth.
    unfold judge in Hj.
    destruct (in_test (advance st line)); [reflexivity|].
    destruct (startswith _ _); [discriminate|].
    destruct (_ && _); discriminate.
Qed.

Lemma in_test_implies_deeper_than_start_witness :
  let lines := ["#[cfg(test)] mod tests {" ++ nl;
                "    fn helper() { x.unwrap(); }" ++ nl] in
  in_test (run init_state lines) = true /\
  test_start_depth (run init_state lines) = 0 /\
  brace_depth (run init_state lines) = 1 /\
  test_start_depth (run init_state lines)
  < brace_depth (run init_state lines).
Proof.
  cbv zeta.
  destruct in_test_implies_deeper_than_start as (_ & H & _).
  split; [reflexivity|]. split; [reflexivity|]. split; [reflexivity|].
  apply (H ["#[cfg(test)] mod tests {" ++ nl;
            "    fn helper() { x.unwrap(); }" ++ nl]).
  reflexivity.
Defined.

End ScannerSkips.

(** ** The order of the report *)

Section ReportOrder.

Import Report.

Lemma ascii_compare_refl (c : ascii) : Ascii.compare c c = Eq.
Proof. apply N.compare_refl. Qed.

Lemma string_compare_refl (s : string) : String.compare s s = Eq.
Proof.
  induction s as [|c s IH]; cbn; [reflexivity|].
  now rewrite ascii_compare_refl.
Qed.

Lemma string_compare_eq (s t : string) : String.compare s t = Eq <-> s = t.
Proof.
  split; [apply String.compare_eq_iff | intros ->; apply string_compare_refl].
Qed.

Lemma string_compare_lt_trans (s t u : string) :
  String.compare s t = Lt -> String.compare t u = Lt ->
  String.compare s u = Lt.
Proof.
  revert t u. induction s as [|a s IH]; intros [|b t] [|c u]; cbn;
    try congruence.
  unfold Ascii.compare.
  destruct (N.compare_spec (N_of_ascii a) (N_of_ascii b)) as [Hab|Hab|Hab];
    destruct (N.compare_spec (N_of_ascii b) (N_of_ascii c)) as [Hbc|Hbc|Hbc];
    try congruence; intros H1 H2.
  - rewrite Hab, Hbc, N.compare_refl. eauto.
  - rewrite Hab. now apply N.compare_lt_iff in Hbc as ->.
  - rewrite <- Hbc. now apply N.compare_lt_iff in Hab as ->.
  - assert (H : (N_of_ascii a < N_of_ascii c)%N) by lia.
    now apply N.compare_lt_iff in H as ->.
Qed.

Lemma tuple_compare_eq (a b : Finding) : tuple_compare a b = Eq -> a = b.
Proof.
  destruct a as [[pa na] ca], b as [[pb nb] cb].
  unfold tuple_compare; cbn.
  destruct (String.compare pa pb) eqn:Hp; try discriminate.
  destruct (Z.compare_spec na nb) as [Hn|Hn|Hn]; try discriminate.
  intros Hc. apply string_compare_eq in Hp, Hc. congruence.
Qed.

Lemma tuple_compare_antisym (a b : Finding) :
  tuple_compare a b = CompOpp (tuple_compare b a).
Proof.
  destruct a as [[pa na] ca], b as [[pb nb] cb].
  unfold tuple_compare; cbn.
  rewrite (String.compare_antisym pa pb), (Z.compare_antisym nb na),
    (String.compare_antisym ca cb).
  destruct (String.compare pb pa); cbn; try reflexivity.
  destruct (nb ?= na); cbn; reflexivity.
Qed.

Lemma tuple_compare_lt_trans (a b c : Finding) :
  tuple_compare a b = Lt -> tuple_compare b c = Lt -> tuple_compare a c = Lt.
Proof.
  destruct a as [[pa na] ca], b as [[pb nb] cb], c as [[pc nc] cc].
  unfold tuple_compare; cbn.
  destruct (String.compare pa pb) eqn:Hab; try discriminate;
    destruct (String.compare pb pc) eqn:Hbc; try discriminate.
  - apply string_compare_eq in Hab, Hbc. subst pb pc.
    rewrite string_compare_refl.
    destruct (Z.compare_spec na nb) as [Hn|Hn|Hn]; try discriminate;
      destruct (Z.compare_spec nb nc) as [Hm|Hm|Hm]; try discriminate;
      intros H1 H2.
    + subst. rewrite Z.compare_refl.
      eapply string_compare_lt_trans; eassumption.
    + subst nb. now apply Z.compare_lt_iff in Hm as ->.
    + subst nc. now apply Z.compare_lt_iff in Hn as ->.
    + assert (H : na < nc) by lia. now apply Z.compare_lt_iff in H as ->.
  - apply string_compare_eq in Hab. subst pb. now rewrite Hbc.
  - apply string_compare_eq in Hbc. subst pc. now rewrite Hab.
  - now rewrite (string_compare_lt_trans _ _ _ Hab Hbc).
Qed.

Lemma tuple_lt_le (a b : Finding) : tuple_lt a b = true -> tuple_le a b.
Proof.
  unfold tuple_le, tuple_lt. rewrite (tuple_compare_antisym b a).
  destruct (tuple_compare a b); cbn; congruence.
Qed.

Lemma tuple_le_trans (a b c : Finding) :
  tuple_le a b -> tuple_le b c -> tuple_le a c.
Proof.
  unfold tuple_le, tuple_lt. intros Hab Hbc.
  destruct (tuple_compare c a) eqn:Hca; try reflexivity.
  destruct (tuple_compare b a) eqn:Hba; try discriminate.
  - apply tuple_compare_eq in Hba. subst b. now rewrite Hca in Hbc.
  - rewrite (tuple_compare_antisym b a) in Hba.
    destruct (tuple_compare a b) eqn:H; try discriminate.
    now rewrite (tuple_compare_lt_trans _ _ _ Hca H) in Hbc.
Qed.

Lemma tuple_le_antisym (a b : Finding) :
  tuple_le a b -> tuple_le b a -> a = b.
Proof.
  unfold tuple_le, tuple_lt. rewrite (tuple_compare_antisym b a).
  destruct (tuple_compare a b) eqn:H; cbn; try discriminate.
  intros _ _. now apply tuple_compare_eq.
Qed.

Lemma tuple_le_key_le (a b : Finding) : tuple_le a b -> key_le a b.
Proof.
  destruct a as [[pa na] ca], b as [[pb nb] cb].
  unfold tuple_le, tuple_lt, tuple_compare, key_le; cbn.
  rewrite (String.compare_antisym pa pb).
  destruct (String.compare pb pa) eqn:Hp; cbn; try discriminate; auto.
  apply string_compare_eq in Hp. subst pb. intros H. right. split; auto.
  destruct (Z.compare_spec nb na); try discriminate; lia.
Qed.

End ReportOrder.

Section SortedFacts.

Import Report.

Lemma insert_perm (x : Finding) (l : list Finding) :
  Permutation (x :: l) (insert x l).
Proof.
  induction l as [|y r IH]; cbn; [reflexivity|].
  destruct (tuple_lt y x); [|reflexivity].
  rewrite perm_swap. now constructor.
Qed.

Lemma sorted_perm (l : list Finding) : Permutation l (sorted l).
Proof.
  induction l as [|x l IH]; cbn; [constructor|].
  rewrite <- insert_perm. now constructor.
Qed.

Lemma insert_sorted (x : Finding) (l : list Finding) :
  StronglySorted tuple_le l -> StronglySorted tuple_le (insert x l).
Proof.
  induction l as [|y r IH]; cbn; intros Hs.
  - repeat constructor.
  - inversion Hs as [|? ? Hr Hy]; subst.
    destruct (tuple_lt y x) eqn:Hyx.
    + constructor; [now apply IH|].
      rewrite <- insert_perm. constructor; [now apply tuple_lt_le | exact Hy].
    + constructor; [exact Hs|].
      constructor; [exact Hyx|].
      eapply Forall_impl; [|exact Hy].
      intros z Hz. eapply tuple_le_trans; [exact Hyx | exact Hz].
Qed.

Lemma sorted_sorted (l : list Finding) : StronglySorted tuple_le (sorted l).
Proof.
  induction l as [|x l IH]; cbn; [constructor|].
  now apply insert_sorted.
Qed.

(** An ordered list is determined by its elements. *)
Lemma sorted_unique (l1 : list Finding) :
  forall l2 : list Finding,
    StronglySorted tuple_le l1 -> StronglySorted tuple_le l2 ->
    Permutation l1 l2 -> l1 = l2.
Proof.
  induction l1 as [|a l1 IH]; intros l2 H1 H2 Hp.
  - now apply Permutation_nil in Hp.
  - destruct l2 as [|b l2].
    + symmetry in Hp. now apply Permutation_nil in Hp.
    + inversion H1 as [|? ? H1' Ha]; subst.
      inversion H2 as [|? ? H2' Hb]; subst.
      assert (a = b) as <-.
      { assert (Hab : a = b \/ In a l2).
        { destruct (Permutation_in a Hp (or_introl eq_refl)); auto. }
        assert (Hba : b = a \/ In b l1).
        { destruct (Permutation_in b (Permutation_sym Hp)
                                   (or_introl eq_refl)); auto. }
        destruct Hab as [|Hab]; [assumption|].
        destruct Hba as [|Hba]; [congruence|].
        rewrite Forall_forall in Ha, Hb.
        apply tuple_le_antisym; auto. }
      f_equal. apply IH; auto.
      now apply Permutation_cons_inv in Hp.
Qed.

End SortedFacts.

Section ReportClaims.

Import Scanner Report Audit.

Lemma scan_all_flat_map (files : list (string * list string)) :
  forall acc : list Finding,
    scan_all files acc
    = (acc ++ flat_map (fun f => scan_file (fst f) (snd f)) files)%list.
Proof.
  unfold scan_all.
  induction files as [|f files IH]; intros acc; cbn.
  - now rewrite app_nil_r.
  - rewrite IH. now rewrite <- app_assoc.
Qed.

Lemma scan_all_perm (files files' : list (string * list string)) :
  Permutation files files' ->
  Permutation (scan_all files []) (scan_all files' []).
Proof.
  intros Hp. rewrite !scan_all_flat_map. cbn.
  now apply Permutation_flat_map.
Qed.

Lemma sorted_of_perm (l l' : list Finding) :
  Permutation l l' -> sorted l' = sorted l.
Proof.
  intros Hp. apply sorted_unique; try apply sorted_sorted.
  rewrite <- !sorted_perm. now symmetry.
Qed.

Lemma report_of_perm (l l' : list Finding) :
  Permutation l l' -> report l' = report l.
Proof.
  intros Hp. unfold report, summary.
  rewrite (sorted_of_perm _ _ Hp).
  now rewrite (Permutation_length Hp).
Qed.

Lemma strongly_sorted_key (l : list Finding) :
  StronglySorted tuple_le l -> StronglySorted key_le l.
Proof.
  induction 1 as [|a l Hs IH Ha]; constructor; [exact IH|].
  eapply Forall_impl; [|exact Ha].
  intros b. apply tuple_le_key_le.
Qed.

(** C4.  The report prints the tuples ordered by path, then by line
    number; it holds each collected tuple exactly once, and it is the same
    for any two collections with the same tuples, so for any order in which
    the files were scanned. *)
Theorem report_sorted_by_path_then_line :
  (forall results : list Finding,
      StronglySorted key_le (sorted results) /\
      Permutation results (sorted results) /\
      report results
      = (map render (sorted results) ++ [summary results])%list) /\
  (forall results results' : list Finding,
      Permutation results results' ->
      sorted results' = sorted results /\
      report results' = report results) /\
  (forall files files' : list (string * list string),
      Permutation files files' ->
      report (scan_all files' []) = report (scan_all files [])).
Proof.
  split; [|split].
  - intros results. split; [|split].
    + apply strongly_sorted_key, sorted_sorted.
    + apply sorted_perm.
    + reflexivity.
  - intros results results' Hp. split.
    + now apply sorted_of_perm.
    + now apply report_of_perm.
  - intros files files' Hp. apply report_of_perm. now apply scan_all_perm.
Qed.

Lemma report_sorted_by_path_then_line_witness :
  let a := ("a.rs", ["fn f() {" ++ PyStr.nl; "    x.unwrap();" ++ PyStr.nl;
                     "}" ++ PyStr.nl]) in
  let b := ("b.rs", ["y.unwrap();" ++ PyStr.nl]) in
  scan_all [b; a] [] = [("b.rs", 1, "y.unwrap();"); ("a.rs", 2, "x.unwrap();")]
  /\ report (scan_all [b; a] [])
     = ["a.rs:2: x.unwrap();"; "b.rs:1: y.unwrap();";
        PyStr.nl ++ "Total non-test .unwrap() calls: 2"]
  /\ report (scan_all [b; a] []) = report (scan_all [a; b] []).
Proof.
  cbv zeta. split; [reflexivity|]. split; [reflexivity|].
  destruct report_sorted_by_path_then_line as (_ & _ & H).
  apply H. apply perm_swap.
Defined.

End ReportClaims.

(** ** The file enumerator and the build directory *)

Section EnumeratorFacts.

Import PyStr Enumerator.

Lemma prefix_app (p a b : string) :
  String.prefix p a = true -> String.prefix p (a ++ b) = true.
Proof.
  revert a. induction p as [|c p IH]; intros [|d a]; cbn; try congruence.
  - destruct b; reflexivity.
  - destruct (ascii_dec c d); [apply IH | congruence].
Qed.

Lemma isin_app (sub a b : string) :
  isin sub a = true -> isin sub (a ++ b) = true.
Proof.
  induction a as [|d a IH]; cbn [isin append].
  - rewrite orb_false_r. intros H. apply prefix_nil_r in H. subst sub.
    destruct b; reflexivity.
  - intros H. apply orb_true_iff in H. apply orb_true_iff.
    destruct H as [H|H]; [left | right; now apply IH].
    now apply (prefix_app sub (String d a) b).
Qed.

(** A relative name only extends the root. *)
Lemma join_relative (top name : string) :
  startswith "/" name = false -> exists x, join top name = top ++ x.
Proof.
  intros H. unfold join. rewrite H.
  destruct (_ || _); eauto.
Qed.

(** Below a skipped root every root is skipped. *)
Lemma skipped_root_join (top name : string) :
  skipped_root top = true -> startswith "/" name = false ->
  skipped_root (join top name) = true.
Proof.
  intros Hs Hn. destruct (join_relative top name Hn) as [x ->].
  now apply isin_app.
Qed.

Lemma skipped_root_no_files (root : string)
      (fnames : list (string * list string)) :
  skipped_root root = true -> files_of_root root fnames = [].
Proof. unfold files_of_root. now intros ->. Qed.

(** Nothing is enumerated from a tree whose root is skipped. *)
Lemma enumerate_skipped :
  forall (d : fsdir) (top : string),
    names_ok d = true -> skipped_root top = true -> enumerate top d = [].
Proof.
  fix IH 1. intros [files subdirs] top Hok Hs.
  unfold enumerate. cbn [walk flat_map fst snd].
  rewrite (skipped_root_no_files _ _ Hs). cbn [app].
  cbn [names_ok] in Hok.
  induction subdirs as [|[name sub] ds IHds]; [reflexivity|].
  apply andb_true_iff in Hok. destruct Hok as [Hok Hds].
  apply andb_true_iff in Hok. destruct Hok as [Hname Hsub].
  apply negb_true_iff in Hname.
  rewrite flat_map_app. rewrite (IHds Hds). rewrite app_nil_r.
  apply (IH sub (join top name) Hsub).
  now apply skipped_root_join.
Qed.

End EnumeratorFacts.

Section EnumeratorClaims.

Import PyStr Enumerator Audit.

(** C6 (the code departs from the claim).  The root of a directory named
    [target] is [.../target], without a separator after the name, so the
    test ["/target/" in root] lets it through: a source file that lies
    directly in [crates/app/target] is opened and scanned, and its
    [.unwrap()] is reported.  Only from one level further down
    ([crates/app/target/debug]) are the files left out. *)
Theorem files_directly_in_target_are_scanned :
  let tree :=
    Dir []
        [("app",
          Dir [("lib.rs", ["pub fn f() {}" ++ nl])]
              [("target",
                Dir [("gen.rs", ["let v = built.unwrap();" ++ nl])]
                    [("debug",
                      Dir [("dep.rs", ["let w = dep.unwrap();" ++ nl])]
                          [])])])] in
  skipped_root "crates/app/target" = false /\
  skipped_root "crates/app/target/debug" = true /\
  enumerate crate_dir tree
  = [("crates/app/lib.rs", ["pub fn f() {}" ++ nl]);
     ("crates/app/target/gen.rs", ["let v = built.unwrap();" ++ nl])] /\
  collect crate_dir tree []
  = [("crates/app/target/gen.rs", 1, "let v = built.unwrap();")] /\
  main tree
  = ["crates/app/target/gen.rs:1: let v = built.unwrap();";
     nl ++ "Total non-test .unwrap() calls: 1"].
Proof. cbv zeta. repeat split. Qed.

(** What the test of the root does achieve: every directory below a
    skipped root is skipped with it, and a name that merely contains
    [target] does not cause a skip. *)
Example below_target_nothing_is_enumerated (d : fsdir) (name : string) :
  names_ok d = true -> startswith "/" name = false ->
  enumerate (join "crates/app/target" name) d = [].
Proof.
  intros Hok Hn. apply enumerate_skipped; [exact Hok|].
  replace (join "crates/app/target" name)
    with ("crates/app/target/" ++ name)
    by (unfold join; rewrite Hn; reflexivity).
  unfold skipped_root. now apply isin_app.
Qed.

Example target_as_part_of_a_name_is_not_skipped :
  skipped_root "crates/mytarget/src" = false /\
  skipped_root "crates/target_old/src" = false /\
  skipped_root "crates/Target/src" = false.
Proof. repeat split. Qed.

End EnumeratorClaims.

(** ** Whole scans: which lines are reported *)

Section TraceFacts.

Import PyStr Scanner Trace.

Lemma judge_out_of_test (fpath : string) (i : Z) (st : ScanState)
      (line : string) :
  in_test st = false ->
  emitted (judge fpath i st line)
  = if flaggable line then [(fpath, i, strip line)] else [].
Proof.
  unfold judge, flaggable. intros ->.
  destruct (startswith "//" (strip line)); cbn [negb andb]; [reflexivity|].
  destruct (isin ".unwrap()" line && negb (isin ".unwrap_or" line));
    reflexivity.
Qed.

Lemma judge_in_test (fpath : string) (i : Z) (st : ScanState)
      (line : string) :
  in_test st = true -> emitted (judge fpath i st line) = [].
Proof. unfold judge. now intros ->. Qed.

Lemma judge_flag_iff (fpath : string) (i : Z) (st : ScanState)
      (line : string) (f : Finding) :
  judge fpath i st line = Flag f <->
  f = (fpath, i, strip line) /\ in_test st = false /\ flaggable line = true.
Proof.
  split.
  - intros H. apply judge_flag in H.
    destruct H as (-> & Ht & Hc & Hu & Ho).
    unfold flaggable. now rewrite Hc, Hu, Ho.
  - intros (-> & Ht & Hf). unfold judge, flaggable in *. rewrite Ht.
    destruct (startswith "//" (strip line)); [discriminate|].
    cbn [negb andb] in Hf. now rewrite Hf.
Qed.

Lemma run_cons (st : ScanState) (l : string) (rest : list string) :
  run st (l :: rest) = run (advance st l) rest.
Proof. reflexivity. Qed.

Lemma scan_lines_In_conv (fpath : string) (lines : list string) :
  forall (st : ScanState) (i : Z) (k : nat) (line : string) (f : Finding),
    nth_error lines k = Some line ->
    judge fpath (i + Z.of_nat k) (run st (firstn (S k) lines)) line
    = Flag f ->
    In f (scan_lines fpath st i lines).
Proof.
  induction lines as [|l rest IH]; intros st i k line f Hk Hj.
  - destruct k; discriminate.
  - cbn [scan_lines]. apply in_app_iff. destruct k as [|k].
    + injection Hk as ->. left.
      cbn [firstn] in Hj. rewrite run_cons in Hj. cbn [run fold_left] in Hj.
      rewrite Z.add_0_r in Hj. rewrite Hj. now left.
    + right. apply (IH _ _ k line); [exact Hk|].
      replace (i + 1 + Z.of_nat k) with (i + Z.of_nat (S k)) by lia.
      exact Hj.
Qed.

Lemma scan_lines_In_iff (fpath : string) (lines : list string)
      (st : ScanState) (i : Z) (f : Finding) :
  In f (scan_lines fpath st i lines) <->
  exists (k : nat) (line : string),
    nth_error lines k = Some line /\
    f = (fpath, i + Z.of_nat k, strip line) /\
    in_test (run st (firstn (S k) lines)) = false /\
    flaggable line = true.
Proof.
  split.
  - intros H. destruct (scan_lines_In _ _ _ _ _ H) as (k & line & Hk & Hj).
    exists k, line. split; [exact Hk|]. now apply judge_flag_iff.
  - intros (k & line & Hk & Hf & Ht & Hl).
    apply (scan_lines_In_conv _ _ _ _ k line); [exact Hk|].
    now apply judge_flag_iff.
Qed.

Lemma emitted_shape (fpath : string) (i : Z) (st : ScanState)
      (line : string) :
  emitted (judge fpath i st line) = [] \/
  emitted (judge fpath i st line) = [(fpath, i, strip line)].
Proof.
  unfold judge.
  destruct (in_test st); [now left|].
  destruct (startswith _ _); [now left|].
  destruct (_ && _); [now right | now left].
Qed.

Lemma scan_lines_numbers (fpath : string) (lines : list string) :
  forall (st : ScanState) (i : Z),
    StronglySorted Z.lt (map f_line (scan_lines fpath st i lines)) /\
    Forall (fun f => i <= f_line f < i + Z.of_nat (List.length lines) /\
                     f_path f = fpath)
           (scan_lines fpath st i lines).
Proof.
  induction lines as [|l rest IH]; intros st i; cbn [scan_lines].
  - split; constructor.
  - destruct (IH (advance st l) (i + 1)) as [Hs Hf].
    assert (Hf' : Forall (fun f => i <= f_line f
                                   < i + Z.of_nat (List.length (l :: rest))
                                   /\ f_path f = fpath)
                         (scan_lines fpath (advance st l) (i + 1) rest)).
    { eapply Forall_impl; [|exact Hf]. cbn beta. cbn [List.length].
      intros f [H1 H2]. split; [lia | exact H2]. }
    destruct (emitted_shape fpath i (advance st l) l) as [-> | ->];
      cbn [app map].
    + split; assumption.
    + split.
      * constructor; [exact Hs|].
        apply Forall_map. eapply Forall_impl; [|exact Hf].
        cbn beta. cbn [f_line fst snd]. intros f [H1 _]. lia.
      * constructor; [|exact Hf'].
        cbn [f_line f_path fst snd List.length]. split; [lia | reflexivity].
Qed.

Lemma run_depth (lines : list string) :
  forall st : ScanState,
    brace_depth (run st lines) = brace_depth st + total_delta lines.
Proof.
  induction lines as [|l rest IH]; intros st.
  - cbn. lia.
  - rewrite run_cons, IH, advance_depth. cbn [total_delta fold_right].
    fold (total_delta rest). lia.
Qed.

End TraceFacts.

Section ModeFacts.

Import PyStr Scanner Trace.

(** One iteration on a line without a marker: the start depth is kept and
    test mode goes on exactly while the depth stays above it. *)
Lemma advance_no_marker (st : ScanState) (line : string) :
  has_marker (strip line) = false ->
  in_test (advance st line)
  = in_test st && (test_start_depth st <? brace_depth st + brace_delta line)
  /\ test_start_depth (advance st line) = test_start_depth st.
Proof.
  intros H. unfold advance. rewrite (detect_marker_miss _ _ H).
  unfold exit_check, update_depth. cbn [in_test brace_depth test_start_depth].
  destruct (in_test st) eqn:Ht; cbn [andb].
  - destruct (Z.leb_spec (brace_depth st + brace_delta line)
                         (test_start_depth st));
      destruct (Z.ltb_spec (test_start_depth st)
                           (brace_depth st + brace_delta line));
      cbn; try lia; auto.
  - cbn. auto.
Qed.

(** The loop only sees whether it is in test mode and, if so, how far the
    depth is above the start depth. *)
Lemma advance_same (s t : ScanState) (line : string) :
  in_test s = in_test t ->
  (in_test s = true ->
   brace_depth s - test_start_depth s = brace_depth t - test_start_depth t) ->
  in_test (advance s line) = in_test (advance t line) /\
  (in_test (advance s line) = true ->
   brace_depth (advance s line) - test_start_depth (advance s line)
   = brace_depth (advance t line) - test_start_depth (advance t line)).
Proof.
  intros Hm Hd. rewrite !advance_depth.
  destruct (has_marker (strip line)) eqn:Hk.
  - rewrite !(advance_marker_start _ _ Hk). split; [|lia].
    destruct (in_test (advance s line)) eqn:Hs;
      destruct (in_test (advance t line)) eqn:Ht; try reflexivity.
    + apply (advance_marker_in_test _ _ Hk) in Hs.
      apply (advance_marker_in_test t _ Hk) in Hs. congruence.
    + apply (advance_marker_in_test _ _ Hk) in Ht.
      apply (advance_marker_in_test s _ Hk) in Ht. congruence.
  - destruct (advance_no_marker s line Hk) as [Hs ->].
    destruct (advance_no_marker t line Hk) as [Ht ->].
    rewrite Hs, Ht, <- Hm.
    destruct (in_test s) eqn:E; cbn [andb].
    + specialize (Hd eq_refl).
      destruct (Z.ltb_spec (test_start_depth s)
                           (brace_depth s + brace_delta line));
        destruct (Z.ltb_spec (test_start_depth t)
                             (brace_depth t + brace_delta line));
        split; try reflexivity; try lia; intros; try discriminate; lia.
    + split; [reflexivity | discriminate].
Qed.

Lemma judge_same (fpath : string) (i : Z) (s t : ScanState)
      (line : string) :
  in_test s = in_test t -> judge fpath i s line = judge fpath i t line.
Proof. unfold judge. now intros ->. Qed.

Lemma scan_lines_same (fpath : string) (lines : list string) :
  forall (s t : ScanState) (i : Z),
    in_test s = in_test t ->
    (in_test s = true ->
     brace_depth s - test_start_depth s
     = brace_depth t - test_start_depth t) ->
    scan_lines fpath s i lines = scan_lines fpath t i lines.
Proof.
  induction lines as [|l rest IH]; intros s t i Hm Hd; [reflexivity|].
  cbn [scan_lines].
  destruct (advance_same s t l Hm Hd) as [Hm' Hd'].
  rewrite (judge_same fpath i _ _ l Hm').
  f_equal. now apply IH.
Qed.

(** In test mode, [d] levels above the start depth, a run of lines without
    markers that keeps the depth above the start depth is skipped whole. *)
Lemma open_block_skipped (fpath : string) (body : list string) :
  forall (s : ScanState) (i : Z),
    in_test s = true ->
    marker_free body = true ->
    stays_open (brace_depth s - test_start_depth s) body = true ->
    scan_lines fpath s i body = [] /\ in_test (run s body) = true.
Proof.
  induction body as [|l rest IH]; intros s i Ht Hm Ho.
  - split; [reflexivity | exact Ht].
  - cbn [marker_free forallb] in Hm. apply andb_true_iff in Hm.
    destruct Hm as [Hl Hm]. apply negb_true_iff in Hl.
    cbn [stays_open] in Ho. apply andb_true_iff in Ho.
    destruct Ho as [Hpos Ho]. apply Z.ltb_lt in Hpos.
    destruct (advance_no_marker s l Hl) as [Hin Hstart].
    assert (Ht' : in_test (advance s l) = true).
    { rewrite Hin, Ht. cbn [andb]. apply Z.ltb_lt. lia. }
    assert (Hd : brace_depth (advance s l) - test_start_depth (advance s l)
                 = brace_depth s - test_start_depth s + brace_delta l).
    { rewrite advance_depth, Hstart. lia. }
    cbn [scan_lines]. rewrite run_cons.
    rewrite (judge_in_test _ _ _ _ Ht'). cbn [app].
    apply IH; [exact Ht' | exact Hm | now rewrite Hd].
Qed.

(** Outside test mode a line without a marker leaves the mode alone. *)
Lemma advance_plain (s : ScanState) (line : string) :
  in_test s = false -> has_marker (strip line) = false ->
  in_test (advance s line) = false.
Proof.
  intros Ht Hm. destruct (advance_no_marker s line Hm) as [-> _].
  now rewrite Ht.
Qed.

Lemma run_plain (lines : list string) :
  forall s : ScanState,
    in_test s = false -> marker_free lines = true ->
    in_test (run s lines) = false.
Proof.
  induction lines as [|l rest IH]; intros s Ht Hm; [exact Ht|].
  cbn [marker_free forallb] in Hm. apply andb_true_iff in Hm.
  destruct Hm as [Hl Hm]. apply negb_true_iff in Hl.
  rewrite run_cons. apply IH; [|exact Hm]. now apply advance_plain.
Qed.

Lemma marker_free_firstn (n : nat) (lines : list string) :
  marker_free lines = true -> marker_free (firstn n lines) = true.
Proof.
  revert n. induction lines as [|l rest IH]; intros [|n] H; try reflexivity.
  cbn [marker_free forallb firstn] in *. apply andb_true_iff in H.
  destruct H as [-> H]. cbn [andb]. now apply IH.
Qed.

Lemma scan_plain_codes (fpath : string) (lines : list string) :
  forall (s : ScanState) (i : Z),
    in_test s = false -> marker_free lines = true ->
    map f_code (scan_lines fpath s i lines)
    = map strip (filter flaggable lines).
Proof.
  induction lines as [|l rest IH]; intros s i Ht Hm; [reflexivity|].
  cbn [marker_free forallb] in Hm. apply andb_true_iff in Hm.
  destruct Hm as [Hl Hm]. apply negb_true_iff in Hl.
  pose proof (advance_plain s l Ht Hl) as Ht'.
  cbn [scan_lines filter]. rewrite map_app.
  rewrite (judge_out_of_test _ _ _ _ Ht').
  rewrite (IH _ _ Ht' Hm).
  destruct (flaggable l); reflexivity.
Qed.

End ModeFacts.

Section TraceProperties.

Import PyStr Scanner Trace.

Lemma scan_lines_app (fpath : string) (pre post : list string) :
  forall (st : ScanState) (i : Z),
    scan_lines fpath st i (pre ++ post)
    = (scan_lines fpath st i pre
       ++ scan_lines fpath (run st pre) (i + Z.of_nat (List.length pre))
                     post)%list.
Proof.
  induction pre as [|l rest IH]; intros st i.
  - cbn. now rewrite Z.add_0_r.
  - cbn [app scan_lines]. rewrite IH, run_cons, <- app_assoc.
    do 3 f_equal. cbn [List.length]. lia.
Qed.

(** X1.  The tuples of a file are exactly these: for each line that is met
    outside test mode (the mode after the line's own marker, braces and
    exit check), does not start with [//] once trimmed, contains
    [.unwrap()] and does not contain [.unwrap_or], the tuple of the path,
    the 1-based number of the line and its trimmed text. *)
Theorem finding_iff_flaggable_line_outside_test
        (fpath : string) (lines : list string) (f : Finding) :
  In f (scan_file fpath lines) <->
  exists (k : nat) (line : string),
    nth_error lines k = Some line /\
    f = (fpath, Z.of_nat k + 1, strip line) /\
    in_test (run init_state (firstn (S k) lines)) = false /\
    flaggable line = true.
Proof.
  unfold scan_file. rewrite scan_lines_In_iff.
  split; intros (k & line & Hk & Hf & Ht & Hl); exists k, line;
    (split; [exact Hk|]); (split; [|split; assumption]);
    rewrite Hf; do 2 f_equal; lia.
Qed.

Lemma finding_iff_flaggable_line_outside_test_witness :
  let lines := ["fn main() {" ++ nl; "    let x = foo.unwrap();" ++ nl;
                "}" ++ nl] in
  In ("a.rs", 2, "let x = foo.unwrap();") (scan_file "a.rs" lines).
Proof.
  cbv zeta.
  apply (finding_iff_flaggable_line_outside_test
           "a.rs"
           ["fn main() {" ++ nl; "    let x = foo.unwrap();" ++ nl;
            "}" ++ nl]
           ("a.rs", 2, "let x = foo.unwrap();")).
  exists 1%nat, ("    let x = foo.unwrap();" ++ nl).
  repeat split.
Defined.

(** X2.  The tuples of one file come in strictly increasing line order, so
    no line is reported twice; every line number lies between 1 and the
    number of lines, and every tuple carries the path of the file. *)
Theorem findings_in_line_order (fpath : string) (lines : list string) :
  StronglySorted Z.lt (map f_line (scan_file fpath lines)) /\
  Forall (fun f => 1 <= f_line f <= Z.of_nat (List.length lines) /\
                   f_path f = fpath)
         (scan_file fpath lines).
Proof.
  destruct (scan_lines_numbers fpath lines init_state 1) as [Hs Hf].
  split; [exact Hs|].
  eapply Forall_impl; [|exact Hf]. cbn beta.
  intros f [H1 H2]. split; [lia | exact H2].
Qed.

(** X3.  The depth counts every brace of every line, whatever the mode and
    whether or not the line is a comment: after any lines it is the depth
    before them plus their opening braces minus their closing braces (and
    may be negative). *)
Theorem depth_counts_every_brace (st : ScanState) (lines : list string) :
  brace_depth (run st lines) = brace_depth st + total_delta lines /\
  brace_depth (run init_state ["// {{" ++ nl; "}}}" ++ nl]) = -1.
Proof. split; [apply run_depth | reflexivity]. Qed.

(** X4.  Depth left over outside test mode has no effect: when a prefix of
    a file ends outside test mode, the rest is scanned exactly as a file
    of its own would be, with the line numbers continued. *)
Theorem rest_of_file_scanned_afresh
        (fpath : string) (pre post : list string) :
  in_test (run init_state pre) = false ->
  scan_file fpath (pre ++ post)
  = (scan_file fpath pre
     ++ scan_lines fpath init_state (1 + Z.of_nat (List.length pre))
                   post)%list.
Proof.
  intros Ht. unfold scan_file. rewrite scan_lines_app. f_equal.
  apply scan_lines_same; [exact Ht|].
  rewrite Ht. discriminate.
Qed.

Lemma rest_of_file_scanned_afresh_witness :
  let pre := ["fn broken() {{" ++ nl; "    a.unwrap();" ++ nl] in
  let post := ["#[test] fn t() {" ++ nl; "    b.unwrap();" ++ nl;
               "}" ++ nl; "c.unwrap();" ++ nl] in
  brace_depth (run init_state pre) = 2 /\
  scan_file "a.rs" (pre ++ post)
  = [("a.rs", 2, "a.unwrap();"); ("a.rs", 6, "c.unwrap();")] /\
  scan_file "a.rs" (pre ++ post)
  = (scan_file "a.rs" pre ++ scan_lines "a.rs" init_state 3 post)%list.
Proof.
  cbv zeta. split; [reflexivity|]. split; [reflexivity|].
  apply (rest_of_file_scanned_afresh
           "a.rs"
           ["fn broken() {{" ++ nl; "    a.unwrap();" ++ nl]
           ["#[test] fn t() {" ++ nl; "    b.unwrap();" ++ nl;
            "}" ++ nl; "c.unwrap();" ++ nl]).
  reflexivity.
Defined.

End TraceProperties.

Section TestBlockProperties.

Import PyStr Scanner Trace.

(** X5.  A test block whose marker line also opens it is skipped: when the
    marker line has more opening than closing braces, and the lines after
    it hold no marker and keep the depth above the depth before the marker
    line, then neither the marker line nor any of those lines is reported,
    and the scanner is still in test mode after them. *)
Theorem opened_test_block_is_skipped
        (fpath : string) (st : ScanState) (i : Z) (l0 : string)
        (body : list string) :
  has_marker (strip l0) = true ->
  0 < brace_delta l0 ->
  marker_free body = true ->
  stays_open (brace_delta l0) body = true ->
  scan_lines fpath st i (l0 :: body) = [] /\
  in_test (run st (l0 :: body)) = true.
Proof.
  intros Hm Hd Hf Ho.
  assert (Ht : in_test (advance st l0) = true)
    by now apply advance_marker_in_test.
  cbn [scan_lines]. rewrite run_cons.
  rewrite (judge_in_test _ _ _ _ Ht). cbn [app].
  apply open_block_skipped; [exact Ht | exact Hf|].
  rewrite advance_depth, (advance_marker_start _ _ Hm).
  replace (brace_depth st + brace_delta l0 - brace_depth st)
    with (brace_delta l0) by lia.
  exact Ho.
Qed.

Lemma opened_test_block_is_skipped_witness :
  let l0 := "#[cfg(test)] mod tests {" ++ nl in
  let body := ["    fn helper() {" ++ nl; "        x.unwrap();" ++ nl;
               "    }" ++ nl; "    fn other() { y.unwrap(); }" ++ nl] in
  flaggable (nth 1 body EmptyString) = true /\
  scan_lines "a.rs" init_state 1 (l0 :: body) = [] /\
  in_test (run init_state (l0 :: body)) = true.
Proof.
  cbv zeta. split; [reflexivity|].
  apply (opened_test_block_is_skipped
           "a.rs" init_state 1 ("#[cfg(test)] mod tests {" ++ nl)
           ["    fn helper() {" ++ nl; "        x.unwrap();" ++ nl;
            "    }" ++ nl; "    fn other() { y.unwrap(); }" ++ nl]).
  - reflexivity.
  - reflexivity.
  - reflexivity.
  - reflexivity.
Defined.

(** X6.  The line on which a test block closes is not skipped.  In test
    mode, a line without a marker that brings the depth back to the start
    depth or below ends test mode in its own iteration; the line is then
    judged like ordinary code (reported if it is flaggable), and the lines
    after it are scanned as from a fresh state. *)
Theorem closing_line_of_test_block_is_judged
        (fpath : string) (st : ScanState) (i : Z) (line : string)
        (rest : list string) :
  in_test st = true ->
  has_marker (strip line) = false ->
  brace_depth st + brace_delta line <= test_start_depth st ->
  in_test (advance st line) = false /\
  scan_lines fpath st i (line :: rest)
  = ((if flaggable line then [(fpath, i, strip line)] else [])
     ++ scan_lines fpath init_state (i + 1) rest)%list.
Proof.
  intros Ht Hm Hd.
  assert (Ht' : in_test (advance st line) = false).
  { destruct (advance_no_marker st line Hm) as [-> _].
    rewrite Ht. cbn [andb]. apply Z.ltb_ge. exact Hd. }
  split; [exact Ht'|].
  cbn [scan_lines]. rewrite (judge_out_of_test _ _ _ _ Ht').
  f_equal. apply scan_lines_same; [exact Ht'|].
  rewrite Ht'. discriminate.
Qed.

Lemma closing_line_of_test_block_is_judged_witness :
  let st := run init_state ["#[test] fn t() {" ++ nl] in
  let line := "    check().unwrap(); }" ++ nl in
  in_test st = true /\
  in_test (advance st line) = false /\
  scan_lines "a.rs" st 2 [line] = [("a.rs", 2, "check().unwrap(); }")].
Proof.
  cbv zeta. split; [reflexivity|].
  apply (closing_line_of_test_block_is_judged
           "a.rs" (run init_state ["#[test] fn t() {" ++ nl]) 2
           ("    check().unwrap(); }" ++ nl) []).
  - reflexivity.
  - reflexivity.
  - cbv. discriminate.
Defined.

(** X7.  In a file without any test marker nothing is skipped as test
    code: the reported texts are the trimmed flaggable lines, in file
    order, and every flaggable line is reported under its 1-based
    number. *)
Theorem marker_free_file_reports_every_flaggable_line
        (fpath : string) (lines : list string) :
  marker_free lines = true ->
  map f_code (scan_file fpath lines) = map strip (filter flaggable lines) /\
  (forall (k : nat) (line : string),
      nth_error lines k = Some line -> flaggable line = true ->
      In (fpath, Z.of_nat k + 1, strip line) (scan_file fpath lines)).
Proof.
  intros Hm. split.
  - now apply scan_plain_codes.
  - intros k line Hk Hl. unfold scan_file. apply scan_lines_In_iff.
    exists k, line. split; [exact Hk|]. split; [|split; [|exact Hl]].
    + do 2 f_equal. lia.
    + apply run_plain; [reflexivity|]. now apply marker_free_firstn.
Qed.

Lemma marker_free_file_reports_every_flaggable_line_witness :
  let lines := ["fn main() {" ++ nl; "    // a.unwrap() is gone" ++ nl;
                "    let b = c.unwrap();" ++ nl;
                "    let d = e.unwrap_or(0);" ++ nl;
                "    f.unwrap()" ++ nl; "}" ++ nl] in
  map f_code (scan_file "a.rs" lines) = ["let b = c.unwrap();"; "f.unwrap()"]
  /\ In ("a.rs", 5, "f.unwrap()") (scan_file "a.rs" lines).
Proof.
  cbv zeta.
  destruct (marker_free_file_reports_every_flaggable_line
              "a.rs"
              ["fn main() {" ++ nl; "    // a.unwrap() is gone" ++ nl;
               "    let b = c.unwrap();" ++ nl;
               "    let d = e.unwrap_or(0);" ++ nl;
               "    f.unwrap()" ++ nl; "}" ++ nl] eq_refl) as [H1 H2].
  split; [exact H1|].
  apply (H2 4%nat ("    f.unwrap()" ++ nl)); reflexivity.
Defined.

End TestBlockProperties.

(** ** Trimming and searching *)

Section StripFacts.

Import PyStr.

Lemma prefix_nil_l (s : string) : String.prefix EmptyString s = true.
Proof. destruct s; reflexivity. Qed.

Lemma prefix_empty_r (sub : string) :
  sub <> EmptyString -> String.prefix sub EmptyString = false.
Proof. destruct sub; [congruence | reflexivity]. Qed.

Lemma prefix_cons (a c : ascii) (p r : string) :
  String.prefix (String a p) (String c r)
  = if ascii_dec a c then String.prefix p r else false.
Proof. reflexivity. Qed.

Lemma isin_empty (sub : string) :
  sub <> EmptyString -> isin sub EmptyString = false.
Proof. destruct sub; [congruence | reflexivity]. Qed.

Lemma lstrip_length (s : string) :
  (String.length (lstrip s) <= String.length s)%nat.
Proof.
  induction s as [|c r IH]; cbn; [lia|].
  destruct (isspace c); cbn; lia.
Qed.

Lemma lstrip_fix (a : ascii) (p : string) :
  lstrip (String a p) = String a p -> isspace a = false.
Proof.
  cbn. destruct (isspace a); [|reflexivity].
  intros H. pose proof (lstrip_length p) as Hl. rewrite H in Hl.
  cbn in Hl. lia.
Qed.

Lemma rstrip_fix (a : ascii) (p : string) :
  rstrip (String a p) = String a p ->
  (p = EmptyString /\ isspace a = false) \/
  (p <> EmptyString /\ rstrip p = p).
Proof.
  cbn [rstrip]. destruct (rstrip p) as [|x y] eqn:E.
  - destruct (isspace a); [discriminate|].
    intros [= <-]. now left.
  - intros [= <-]. right. split; [discriminate | reflexivity].
Qed.

Lemma isin_lstrip (sub s : string) :
  lstrip sub = sub -> sub <> EmptyString ->
  isin sub (lstrip s) = isin sub s.
Proof.
  intros Hl Hn. induction s as [|c r IH]; [reflexivity|].
  cbn [lstrip]. destruct (isspace c) eqn:E; [|reflexivity].
  rewrite IH. cbn [isin].
  destruct sub as [|a p]; [congruence|].
  rewrite prefix_cons. destruct (ascii_dec a c) as [->|]; [|reflexivity].
  apply lstrip_fix in Hl. congruence.
Qed.

Lemma prefix_rstrip (s : string) :
  forall sub : string,
    rstrip sub = sub -> sub <> EmptyString ->
    String.prefix sub (rstrip s) = String.prefix sub s.
Proof.
  induction s as [|c r IH]; intros sub Hr Hn; [reflexivity|].
  destruct sub as [|a p]; [congruence|].
  destruct (rstrip_fix _ _ Hr) as [[-> Ha] | [Hp Hrp]].
  - cbn [rstrip]. destruct (rstrip r) as [|x y].
    + destruct (isspace c) eqn:Ec.
      * rewrite prefix_cons. cbn.
        destruct (ascii_dec a c) as [->|]; [congruence | reflexivity].
      * rewrite !prefix_cons.
        destruct (ascii_dec a c); [|reflexivity].
        now rewrite !prefix_nil_l.
    + rewrite !prefix_cons.
      destruct (ascii_dec a c); [|reflexivity].
      now rewrite !prefix_nil_l.
  - specialize (IH p Hrp Hp).
    cbn [rstrip]. destruct (rstrip r) as [|x y].
    + rewrite (prefix_empty_r _ Hp) in IH.
      rewrite prefix_cons, <- IH.
      destruct (isspace c).
      * destruct (ascii_dec a c); reflexivity.
      * rewrite prefix_cons, (prefix_empty_r _ Hp).
        destruct (ascii_dec a c); reflexivity.
    + rewrite !prefix_cons. now rewrite IH.
Qed.

Lemma isin_rstrip (sub s : string) :
  rstrip sub = sub -> sub <> EmptyString ->
  isin sub (rstrip s) = isin sub s.
Proof.
  intros Hr Hn. induction s as [|c r IH]; [reflexivity|].
  pose proof (prefix_rstrip (String c r) sub Hr Hn) as Hp.
  cbn [isin]. rewrite <- Hp, <- IH. clear Hp IH.
  cbn [rstrip]. destruct (rstrip r) as [|x y].
  - rewrite (isin_empty _ Hn), orb_false_r.
    destruct (isspace c); cbn [isin].
    + now rewrite orb_false_r.
    + now rewrite (prefix_empty_r _ Hn), !orb_false_r.
  - reflexivity.
Qed.

Lemma isin_strip (sub s : string) :
  lstrip sub = sub -> rstrip sub = sub -> sub <> EmptyString ->
  isin sub (strip s) = isin sub s.
Proof.
  intros Hl Hr Hn. unfold strip.
  now rewrite (isin_rstrip _ _ Hr Hn), (isin_lstrip _ _ Hl Hn).
Qed.

Lemma lstrip_idem (s : string) : lstrip (lstrip s) = lstrip s.
Proof.
  induction s as [|c r IH]; [reflexivity|].
  cbn [lstrip]. destruct (isspace c) eqn:E; [exact IH|].
  cbn [lstrip]. now rewrite E.
Qed.

Lemma rstrip_idem (s : string) : rstrip (rstrip s) = rstrip s.
Proof.
  induction s as [|c r IH]; [reflexivity|].
  cbn [rstrip]. destruct (rstrip r) as [|x y] eqn:E.
  - destruct (isspace c) eqn:Ec; [reflexivity|].
    cbn [rstrip]. now rewrite Ec.
  - cbn [rstrip] in IH |- *. now rewrite IH.
Qed.

Lemma lstrip_rstrip (s : string) :
  lstrip s = s -> lstrip (rstrip s) = rstrip s.
Proof.
  destruct s as [|c r]; [reflexivity|].
  intros H. apply lstrip_fix in H.
  cbn [rstrip]. destruct (rstrip r) as [|x y].
  - rewrite H. cbn [lstrip]. now rewrite H.
  - cbn [lstrip]. now rewrite H.
Qed.

Lemma strip_idem (s : string) : strip (strip s) = strip s.
Proof.
  unfold strip.
  rewrite (lstrip_rstrip (lstrip s) (lstrip_idem s)).
  apply rstrip_idem.
Qed.

End StripFacts.

Section StripProperties.

Import PyStr Scanner Trace.

(** X8.  It makes no difference that the markers are sought in the trimmed
    text and the call in the raw line: trimming a line changes neither
    whether it holds a marker, nor whether it holds [.unwrap()], nor
    whether it holds [.unwrap_or]. *)
Theorem marker_and_pattern_tests_ignore_trimming (line : string) :
  has_marker (strip line) = has_marker line /\
  isin ".unwrap()" (strip line) = isin ".unwrap()" line /\
  isin ".unwrap_or" (strip line) = isin ".unwrap_or" line.
Proof.
  unfold has_marker.
  rewrite !isin_strip by (reflexivity || discriminate).
  repeat split.
Qed.

(** X9.  The text of every reported tuple is trimmed (trimming it again
    changes nothing), is not empty, does not start with [//], still holds
    [.unwrap()] and holds no [.unwrap_or]. *)
Theorem reported_text_is_trimmed_and_holds_the_call
        (fpath : string) (lines : list string) (f : Finding) :
  In f (scan_file fpath lines) ->
  strip (f_code f) = f_code f /\
  f_code f <> EmptyString /\
  startswith "//" (f_code f) = false /\
  isin ".unwrap()" (f_code f) = true /\
  isin ".unwrap_or" (f_code f) = false.
Proof.
  intros H. apply scan_lines_In_iff in H.
  destruct H as (k & line & _ & -> & _ & Hl).
  cbn [f_code snd].
  unfold flaggable in Hl.
  apply andb_true_iff in Hl. destruct Hl as [Hc Hl].
  apply andb_true_iff in Hl. destruct Hl as [Hu Ho].
  apply negb_true_iff in Hc, Ho.
  assert (Hu' : isin ".unwrap()" (strip line) = true)
    by (rewrite isin_strip by (reflexivity || discriminate); exact Hu).
  split; [apply strip_idem|]. split.
  - intros E. rewrite E in Hu'. discriminate.
  - split; [exact Hc|]. split; [exact Hu'|].
    rewrite isin_strip by (reflexivity || discriminate). exact Ho.
Qed.

Lemma reported_text_is_trimmed_and_holds_the_call_witness :
  let lines := ["fn main() {" ++ nl;
                String (ascii_of_nat 9) "let x = foo.unwrap();  " ++ nl;
                "}" ++ nl] in
  scan_file "a.rs" lines = [("a.rs", 2, "let x = foo.unwrap();")] /\
  strip "let x = foo.unwrap();" = "let x = foo.unwrap();" /\
  isin ".unwrap()" "let x = foo.unwrap();" = true.
Proof.
  cbv zeta. split; [reflexivity|].
  destruct (reported_text_is_trimmed_and_holds_the_call
              "a.rs"
              ["fn main() {" ++ nl;
               String (ascii_of_nat 9) "let x = foo.unwrap();  " ++ nl;
               "}" ++ nl]
              ("a.rs", 2, "let x = foo.unwrap();"))
    as (H1 & _ & _ & H4 & _).
  - left. reflexivity.
  - split; [exact H1 | exact H4].
Defined.

End StripProperties.

(** ** Which files are read, and what is printed *)

Section PathFacts.

Import PyStr Enumerator.

Lemma append_assoc (a b c : string) : (a ++ b) ++ c = a ++ (b ++ c).
Proof. induction a as [|x a IH]; cbn; [reflexivity | now rewrite IH]. Qed.

Lemma rev_onto_app (s t : string) :
  forall acc : string, rev_onto (s ++ t) acc = rev_onto t (rev_onto s acc).
Proof. induction s as [|c s IH]; intros acc; cbn; [reflexivity | apply IH]. Qed.

Lemma rev_onto_acc (s : string) :
  forall acc : string, rev_onto s acc = rev_onto s EmptyString ++ acc.
Proof.
  induction s as [|c s IH]; intros acc; cbn; [reflexivity|].
  rewrite (IH (String c acc)), (IH (String c EmptyString)).
  now rewrite append_assoc.
Qed.

Lemma endswith_app (suf a b : string) :
  endswith suf b = true -> endswith suf (a ++ b) = true.
Proof.
  unfold endswith, rev. intros H.
  rewrite rev_onto_app, (rev_onto_acc b (rev_onto a EmptyString)).
  now apply prefix_app.
Qed.

(** The joined path ends as the name does. *)
Lemma endswith_join (suf root name : string) :
  endswith suf name = true -> endswith suf (join root name) = true.
Proof.
  intros H. unfold join.
  destruct (startswith "/" name); [exact H|].
  destruct (_ || _).
  - now apply endswith_app.
  - apply endswith_app. now apply (endswith_app suf "/" name).
Qed.

Lemma files_of_root_In (root : string)
      (fnames : list (string * list string)) (p : string)
      (ls : list string) :
  In (p, ls) (files_of_root root fnames) ->
  skipped_root root = false /\
  exists name : string,
    In (name, ls) fnames /\ p = join root name /\
    endswith ".rs" name = true /\ isin ".disabled" name = false.
Proof.
  unfold files_of_root. destruct (skipped_root root); [intros []|].
  intros H. split; [reflexivity|].
  apply in_flat_map in H. destruct H as ([name ls'] & Hin & H).
  cbn [fst snd] in H. unfold skipped_name in H.
  destruct (endswith ".rs" name) eqn:He; cbn [negb orb] in H; [|destruct H].
  destruct (isin ".disabled" name) eqn:Hd; [destruct H|].
  destruct H as [[= <- <-] | []].
  exists name. auto.
Qed.

Lemma enumerate_In (top : string) (d : fsdir) (p : string)
      (ls : list string) :
  In (p, ls) (enumerate top d) ->
  exists (root : string) (files : list (string * list string))
         (name : string),
    In (root, files) (walk top d) /\ In (name, ls) files /\
    p = join root name /\ skipped_root root = false /\
    endswith ".rs" name = true /\ isin ".disabled" name = false.
Proof.
  unfold enumerate. intros H. apply in_flat_map in H.
  destruct H as ([root files] & Hw & H). cbn [fst snd] in H.
  apply files_of_root_In in H. destruct H as (Hs & name & H1 & H2 & H3 & H4).
  exists root, files, name. auto 10.
Qed.

End PathFacts.

Section PerFileFacts.

Import PyStr Scanner Audit.







End PerFileFacts.

Section RunProperties.

Import PyStr Scanner Enumerator Report Audit.

(** X10.  Only enabled Rust sources are read: every file that reaches
    [open] is [join(root, name)] for a directory [root] of the walk that
    does not contain [/target/] and a file [name] of it that ends with
    [.rs] and does not contain [.disabled]; its path therefore ends with
    [.rs], and so does the path of every reported tuple. *)
Theorem only_enabled_rust_sources_are_scanned (top : string) (d : fsdir) :
  (forall (p : string) (ls : list string),
      In (p, ls) (enumerate top d) ->
      endswith ".rs" p = true /\
      exists (root : string) (files : list (string * list string))
             (name : string),
        In (root, files) (walk top d) /\ In (name, ls) files /\
        p = join root name /\ skipped_root root = false /\
        endswith ".rs" name = true /\ isin ".disabled" name = false) /\
  (forall f : Finding,
      In f (collect top d []) -> endswith ".rs" (f_path f) = true).
Proof.
  assert (Hp : forall p ls, In (p, ls) (enumerate top d) ->
                            endswith ".rs" p = true).
  { intros p ls H. apply enumerate_In in H.
    destruct H as (root & files & name & _ & _ & -> & _ & He & _).
    now apply endswith_join. }
  split.
  - intros p ls H. split; [now apply (Hp p ls)|]. now apply enumerate_In.
  - intros f H. unfold collect in H. rewrite scan_all_flat_map in H.
    cbn [app] in H. apply in_flat_map in H.
    destruct H as ([p ls] & Hin & Hf). cbn [fst snd] in Hf.
    apply scan_lines_line_no in Hf.
    destruct Hf as (_ & _ & _ & _ & -> & _).
    now apply (Hp p ls).
Qed.

Lemma only_enabled_rust_sources_are_scanned_witness :
  let tree :=
    Dir [("lib.rs", ["a.unwrap();" ++ nl]);
         ("old.rs.disabled", ["b.unwrap();" ++ nl]);
         ("tmp.disabled.rs", ["c.unwrap();" ++ nl]);
         ("notes.txt", ["d.unwrap();" ++ nl])]
        [("src", Dir [("main.rs", ["e.unwrap();" ++ nl])] [])] in
  collect crate_dir tree []
  = [("crates/lib.rs", 1, "a.unwrap();");
     ("crates/src/main.rs", 1, "e.unwrap();")] /\
  endswith ".rs" (f_path ("crates/src/main.rs", 1, "e.unwrap();")) = true.
Proof.
  cbv zeta. split; [reflexivity|].
  destruct (only_enabled_rust_sources_are_scanned
              crate_dir
              (Dir [("lib.rs", ["a.unwrap();" ++ nl]);
                    ("old.rs.disabled", ["b.unwrap();" ++ nl]);
                    ("tmp.disabled.rs", ["c.unwrap();" ++ nl]);
                    ("notes.txt", ["d.unwrap();" ++ nl])]
                   [("src", Dir [("main.rs", ["e.unwrap();" ++ nl])] [])]))
    as [_ H].
  apply H. right. left. reflexivity.
Defined.



(** X12.  The report has one line for each collected tuple, the rendered
    tuples in sorted order, and then the summary; the number in the
    summary is the number of lines printed before it. *)
Theorem report_has_one_line_per_finding_and_a_count
        (results : list Finding) :
  List.length (report results) = S (List.length results) /\
  removelast (report results) = map render (sorted results) /\
  last (report results) EmptyString = summary results /\
  summary results
  = nl ++ "Total non-test .unwrap() calls: "
       ++ str_of_int (Z.of_nat (List.length (map render (sorted results)))).
Proof.
  unfold report. split; [|split; [|split]].
  - rewrite length_app, length_map, <- (Permutation_length (sorted_perm _)).
    cbn. lia.
  - apply removelast_last.
  - apply last_last.
  - unfold summary.
    now rewrite length_map, <- (Permutation_length (sorted_perm _)).
Qed.

(** X13.  When no line of any file that is read contains [.unwrap()],
    nothing is collected and the output is the summary line alone, with
    count 0; this includes a tree without any eligible file. *)
Theorem no_target_call_gives_the_zero_summary (d : fsdir) :
  forallb (fun f => forallb (fun l => negb (isin ".unwrap()" l)) (snd f))
          (enumerate crate_dir d) = true ->
  collect crate_dir d [] = [] /\
  main d = [nl ++ "Total non-test .unwrap() calls: 0"].
Proof.
  intros H.
  assert (Hc : collect crate_dir d [] = []).
  { unfold collect. rewrite scan_all_flat_map. cbn [app].
    induction (enumerate crate_dir d) as [|[p ls] fs IH]; [reflexivity|].
    cbn [forallb snd] in H. apply andb_true_iff in H. destruct H as [Hl H].
    cbn [flat_map fst snd]. rewrite (IH H), app_nil_r.
    pose proof (scan_lines_length p ls init_state 1) as Hlen.
    replace (filter (isin ".unwrap()") ls) with (@nil string) in Hlen.
    - unfold scan_file. destruct (scan_lines p init_state 1 ls);
        [reflexivity | cbn in Hlen; lia].
    - clear -Hl. induction ls as [|l ls IH]; [reflexivity|].
      cbn [forallb] in Hl. apply andb_true_iff in Hl.
      destruct Hl as [Hl Hls]. apply negb_true_iff in Hl.
      cbn [filter]. rewrite Hl. now apply IH. }
  split; [exact Hc|]. unfold main. now rewrite Hc.
Qed.

Lemma no_target_call_gives_the_zero_summary_witness :
  main (Dir [("lib.rs", ["pub fn f() -> u8 {" ++ nl;
                         "    g().unwrap_or(0)" ++ nl; "}" ++ nl])]
            [("docs", Dir [("notes.txt", ["x.unwrap()" ++ nl])] [])])
  = [nl ++ "Total non-test .unwrap() calls: 0"] /\
  main (Dir [] []) = [nl ++ "Total non-test .unwrap() calls: 0"].
Proof.
  split.
  - apply (no_target_call_gives_the_zero_summary
             (Dir [("lib.rs", ["pub fn f() -> u8 {" ++ nl;
                               "    g().unwrap_or(0)" ++ nl; "}" ++ nl])]
                  [("docs", Dir [("notes.txt", ["x.unwrap()" ++ nl])] [])])).
    reflexivity.
  - apply (no_target_call_gives_the_zero_summary (Dir [] [])).
    reflexivity.
Defined.

(** X14.  Below a root that contains [/target/] nothing is read, at any
    depth: the whole subtree yields no file, and the collected list is
    left as it was. *)
Theorem nothing_is_scanned_below_a_skipped_root
        (top : string) (d : fsdir) (acc : list Finding) :
  names_ok d = true ->
  skipped_root top = true ->
  enumerate top d = [] /\ collect top d acc = acc.
Proof.
  intros Hok Hs.
  assert (He : enumerate top d = []) by now apply enumerate_skipped.
  split; [exact He|]. unfold collect. now rewrite He.
Qed.

Lemma nothing_is_scanned_below_a_skipped_root_witness :
  let d := Dir [("build.rs", ["a.unwrap();" ++ nl])]
               [("deps", Dir [("dep.rs", ["b.unwrap();" ++ nl])] [])] in
  enumerate "crates/app/target/debug" d = [] /\
  collect "crates/app/target/debug" d [] = [].
Proof.
  cbv zeta.
  apply (nothing_is_scanned_below_a_skipped_root
           "crates/app/target/debug"
           (Dir [("build.rs", ["a.unwrap();" ++ nl])]
                [("deps", Dir [("dep.rs", ["b.unwrap();" ++ nl])] [])])
           []).
  - reflexivity.
  - reflexivity.
Defined.

End RunProperties.

Section MoreModeProperties.

Import PyStr Scanner Trace.

Lemma forallb_false_In (A : Type) (p : A -> bool) (l : list A) :
  forallb p l = false -> exists x : A, In x l /\ p x = false.
Proof.
  induction l as [|a l IH]; cbn; [discriminate|].
  destruct (p a) eqn:E; cbn.
  - intros H. destruct (IH H) as (x & Hx & Hp). eauto.
  - intros _. eauto.
Qed.

(** X15.  Test mode is entered by marker lines only: if the scanner is in
    test mode after some lines of a file, one of them contains
    [#[cfg(test)]] or [#[test]]. *)
Theorem test_mode_needs_a_marker (lines : list string) :
  in_test (run init_state lines) = true ->
  exists l : string, In l lines /\ has_marker (strip l) = true.
Proof.
  intros Ht. destruct (marker_free lines) eqn:Hm.
  - rewrite (run_plain lines init_state eq_refl Hm) in Ht. discriminate.
  - apply forallb_false_In in Hm. destruct Hm as (l & Hl & Hk).
    apply negb_false_iff in Hk. eauto.
Qed.

Lemma test_mode_needs_a_marker_witness :
  exists l : string,
    In l ["fn a() {" ++ nl; "#[cfg(test)] mod t {" ++ nl; "fn b() {" ++ nl]
    /\ has_marker (strip l) = true.
Proof.
  apply (test_mode_needs_a_marker
           ["fn a() {" ++ nl; "#[cfg(test)] mod t {" ++ nl;
            "fn b() {" ++ nl]).
  reflexivity.
Defined.

(** X16.  A marker line that leaves no block open hides nothing.  When a
    line with a marker has no more opening than closing braces, the
    scanner is outside test mode after it, whatever the mode before; the
    line itself is judged like ordinary code and the lines after it are
    scanned as from a fresh state. *)
Theorem marker_line_without_open_block_hides_nothing
        (fpath : string) (st : ScanState) (i : Z) (l0 : string)
        (rest : list string) :
  has_marker (strip l0) = true ->
  brace_delta l0 <= 0 ->
  in_test (advance st l0) = false /\
  scan_lines fpath st i (l0 :: rest)
  = ((if flaggable l0 then [(fpath, i, strip l0)] else [])
     ++ scan_lines fpath init_state (i + 1) rest)%list.
Proof.
  intros Hm Hd.
  assert (Ht : in_test (advance st l0) = false).
  { destruct (in_test (advance st l0)) eqn:E; [|reflexivity].
    apply (advance_marker_in_test _ _ Hm) in E. lia. }
  split; [exact Ht|].
  cbn [scan_lines]. rewrite (judge_out_of_test _ _ _ _ Ht).
  f_equal. apply scan_lines_same; [exact Ht|].
  rewrite Ht. discriminate.
Qed.

Lemma marker_line_without_open_block_hides_nothing_witness :
  let st := run init_state ["#[cfg(test)] mod tests {" ++ nl] in
  let rest := ["    fn t() {" ++ nl; "        x.unwrap();" ++ nl;
               "    }" ++ nl] in
  in_test st = true /\
  in_test (advance st ("    #[test]" ++ nl)) = false /\
  scan_lines "a.rs" st 2 (("    #[test]" ++ nl) :: rest)
  = [("a.rs", 4, "x.unwrap();")].
Proof.
  cbv zeta. split; [reflexivity|].
  destruct (marker_line_without_open_block_hides_nothing
              "a.rs" (run init_state ["#[cfg(test)] mod tests {" ++ nl]) 2
              ("    #[test]" ++ nl)
              ["    fn t() {" ++ nl; "        x.unwrap();" ++ nl;
               "    }" ++ nl]) as [H1 H2].
  - reflexivity.
  - cbv. discriminate.
  - split; [exact H1|]. rewrite H2. reflexivity.
Defined.

End MoreModeProperties.

Section EnumeratorCoverage.

Import PyStr Enumerator Tree.

Lemma walk_In_sub (top : string) (files : list (string * list string))
      (subdirs : list (string * fsdir)) (name : string) (sub : fsdir)
      (x : string * list (string * list string)) :
  In (name, sub) subdirs ->
  In x (walk (join top name) sub) ->
  In x (walk top (Dir files subdirs)).
Proof.
  intros Hin Hx. cbn [walk]. right.
  induction subdirs as [|[n s] ds IH]; [destruct Hin|].
  apply in_app_iff. destruct Hin as [[= -> ->] | Hin].
  - now left.
  - right. now apply IH.
Qed.

(** The walk reaches the directory at the end of any chain of names, under
    the root obtained by joining the names one after the other. *)
Lemma walk_dir_at (ns : list string) :
  forall (d : fsdir) (top : string) (files : list (string * list string))
         (subdirs : list (string * fsdir)),
    dir_at d ns = Some (Dir files subdirs) ->
    In (fold_left join ns top, files) (walk top d).
Proof.
  induction ns as [|n ns IH]; intros d top files subdirs H.
  - cbn in H. injection H as ->. now left.
  - destruct d as [fs ss]. cbn [dir_at] in H.
    destruct (find (fun e => String.eqb (fst e) n) ss) as [[n' sub]|] eqn:E;
      [|discriminate].
    apply find_some in E. destruct E as [Hin Hn]. cbn [fst snd] in *.
    apply String.eqb_eq in Hn. subst n'.
    cbn [fold_left]. apply (walk_In_sub top fs ss n sub); [exact Hin|].
    now apply (IH sub (join top n) files subdirs).
Qed.

Lemma component_not_empty (n : string) :
  is_component n = true -> n <> EmptyString.
Proof.
  unfold is_component. intros H ->. discriminate H.
Qed.

Lemma component_no_sep (n : string) :
  is_component n = true -> isin "/" n = false.
Proof.
  unfold is_component. intros H. apply andb_true_iff in H.
  destruct H as [_ H]. now apply negb_true_iff in H.
Qed.

Lemma isin_char_cons (c d : ascii) (x : string) :
  isin (String c EmptyString) (String d x)
  = (if ascii_dec c d then true else false)
    || isin (String c EmptyString) x.
Proof.
  cbn [isin]. rewrite prefix_cons, prefix_nil_l. reflexivity.
Qed.

Lemma isin_char_rev (c : ascii) (s : string) :
  forall acc : string,
    isin (String c EmptyString) (rev_onto s acc)
    = isin (String c EmptyString) s || isin (String c EmptyString) acc.
Proof.
  induction s as [|d r IH]; intros acc.
  - reflexivity.
  - cbn [rev_onto]. rewrite IH, !isin_char_cons.
    destruct (ascii_dec c d); destruct (isin (String c EmptyString) r);
      reflexivity.
Qed.

Lemma prefix_isin (p s : string) :
  String.prefix p s = true -> isin p s = true.
Proof. intros H. destruct s; cbn [isin]; now rewrite H. Qed.

Lemma prefix_char_app (c : ascii) (t y : string) :
  t <> EmptyString ->
  String.prefix (String c EmptyString) (t ++ y)
  = String.prefix (String c EmptyString) t.
Proof.
  destruct t as [|d t]; [congruence|]. intros _.
  cbn [append]. now rewrite !prefix_cons, !prefix_nil_l.
Qed.

Lemma rev_not_empty (n : string) :
  n <> EmptyString -> rev n <> EmptyString.
Proof.
  destruct n as [|c r]; [congruence|]. intros _.
  unfold rev. cbn [rev_onto]. rewrite rev_onto_acc.
  destruct (rev_onto r EmptyString); discriminate.
Qed.

(** Whatever precedes it, a path that ends with a component does not end
    with a separator. *)
Lemma endswith_sep_component (x n : string) :
  is_component n = true -> endswith "/" (x ++ n) = false.
Proof.
  intros Hc. unfold endswith, rev.
  rewrite rev_onto_app, (rev_onto_acc n (rev_onto x EmptyString)).
  change (rev_onto "/" EmptyString) with "/".
  rewrite prefix_char_app
    by (apply rev_not_empty; now apply component_not_empty).
  destruct (String.prefix "/" (rev_onto n EmptyString)) eqn:E;
    [|reflexivity].
  apply prefix_isin in E. rewrite isin_char_rev in E.
  rewrite (component_no_sep _ Hc) in E. discriminate E.
Qed.

Lemma join_component (a n : string) :
  a <> EmptyString -> endswith "/" a = false -> is_component n = true ->
  join a n = a ++ "/" ++ n.
Proof.
  intros Ha He Hc. unfold join.
  assert (Hs : startswith "/" n = false).
  { unfold startswith. destruct (String.prefix "/" n) eqn:E; [|reflexivity].
    apply prefix_isin in E. rewrite (component_no_sep _ Hc) in E.
    discriminate E. }
  rewrite Hs, He. destruct a; [congruence | reflexivity].
Qed.

Lemma concat_sep_head (a n : string) (ns : list string) :
  String.concat "/" ((a ++ "/" ++ n) :: ns)
  = a ++ "/" ++ String.concat "/" (n :: ns).
Proof.
  destruct ns as [|m r]; [reflexivity|].
  cbn [String.concat]. now rewrite !append_assoc.
Qed.

(** Joining components one after the other gives the names separated by
    single separators. *)
Lemma fold_join_concat (ns : list string) :
  forall top : string,
    top <> EmptyString -> endswith "/" top = false ->
    forallb is_component ns = true ->
    fold_left join ns top = String.concat "/" (top :: ns).
Proof.
  induction ns as [|n ns IH]; intros top Ht He Hc; [reflexivity|].
  cbn [forallb] in Hc. apply andb_true_iff in Hc. destruct Hc as [Hn Hc].
  cbn [fold_left]. rewrite (join_component _ _ Ht He Hn).
  rewrite IH; [apply concat_sep_head | | | exact Hc].
  - destruct top; [congruence | discriminate].
  - rewrite <- append_assoc. now apply endswith_sep_component.
Qed.

(** X17.  Every eligible file is read, under its full path: a file that
    lies in the directory reached from the top by the names [ns], when
    the slash-joined path of that directory does not contain [/target/]
    and the file name ends with [.rs] and does not contain [.disabled],
    is opened under the top directory, the names [ns] and its own name
    joined by single slashes. *)
Theorem every_file_is_read_under_its_slash_joined_path
        (top : string) (d : fsdir) (ns : list string)
        (files : list (string * list string))
        (subdirs : list (string * fsdir)) (name : string)
        (ls : list string) :
  top <> EmptyString ->
  endswith "/" top = false ->
  forallb is_component ns = true ->
  is_component name = true ->
  dir_at d ns = Some (Dir files subdirs) ->
  In (name, ls) files ->
  skipped_root (String.concat "/" (top :: ns)) = false ->
  endswith ".rs" name = true ->
  isin ".disabled" name = false ->
  In (String.concat "/" (top :: ns ++ [name]), ls) (enumerate top d).
Proof.
  intros Ht He Hns Hn Hd Hf Hs Hrs Hdis.
  pose proof (walk_dir_at ns d top files subdirs Hd) as Hw.
  rewrite (fold_join_concat ns top Ht He Hns) in Hw.
  assert (Hp : String.concat "/" (top :: ns ++ [name])
               = join (String.concat "/" (top :: ns)) name).
  { rewrite <- (fold_join_concat (ns ++ [name]) top Ht He).
    - rewrite fold_left_app. cbn [fold_left].
      now rewrite (fold_join_concat ns top Ht He Hns).
    - rewrite forallb_app, Hns. cbn [forallb]. now rewrite Hn. }
  rewrite Hp. unfold enumerate. apply in_flat_map.
  exists (String.concat "/" (top :: ns), files). split; [exact Hw|].
  cbn [fst snd]. unfold files_of_root. rewrite Hs.
  apply in_flat_map. exists (name, ls). split; [exact Hf|].
  cbn [fst snd]. unfold skipped_name. rewrite Hrs, Hdis. now left.
Qed.

Lemma every_file_is_read_under_its_slash_joined_path_witness :
  let inner := Dir [("deep.rs", ["x.unwrap();" ++ nl])] [] in
  let d := Dir [("lib.rs", [])]
               [("docs", Dir [] []); ("src", Dir [] [("bin", inner)])] in
  In ("crates/src/bin/deep.rs", ["x.unwrap();" ++ nl])
     (enumerate crate_dir d).
Proof.
  cbv zeta.
  apply (every_file_is_read_under_its_slash_joined_path
           crate_dir
           (Dir [("lib.rs", [])]
                [("docs", Dir [] []);
                 ("src",
                  Dir [] [("bin",
                           Dir [("deep.rs", ["x.unwrap();" ++ nl])] [])])])
           ["src"; "bin"]
           [("deep.rs", ["x.unwrap();" ++ nl])] []
           "deep.rs" ["x.unwrap();" ++ nl]).
  - discriminate.
  - reflexivity.
  - reflexivity.
  - reflexivity.
  - reflexivity.
  - now left.
  - reflexivity.
  - reflexivity.
  - reflexivity.
Defined.

End EnumeratorCoverage.
